(** * Investment Property Analyzer: report assembly, classification and mail hand-off

    A shallow embedding of [app.py] (Flask backend of the Edmund Bogen Team
    investment analyzer) and the properties of its report builder:
    formatting helpers, threshold classification, per-section tinting,
    attachment file names and the mail hand-off.

    Modelling conventions
    - a JSON payload, as [request.get_json()] returns it, is a
      [gmap string pyval]; [dict_get] is Python's [dict.get(key, default)];
      an [int] of the payload has been read from its digits, so it is within
      the interpreter's limit on conversions between [int] and [str] (the
      same limit in both directions) and printing it does not raise;
    - a Python [float] is an IEEE-754 binary64 number, here [spec_float] with
      [prec = 53] and [emax = 1024] (Python's JSON reader also accepts [NaN]
      and [Infinity]); a Python [int] is a [Z]; [bool] is a subtype of [int];
    - a Python [str] is a [string]; where the program searches or cuts a
      string (the address) each [ascii] is one character, as a Python slice
      counts code points, so an address with characters beyond Latin-1 is
      outside the model;
    - an exception is a value of [exn]; code that may raise returns a
      [result];
    - ReportLab's [Paragraph], [Spacer], [Table] and [TableStyle] are data:
      [generate_pdf] is embedded up to the [story] it hands to [doc.build];
      what the library does with it (layout, drawing) is outside the model,
      except for the rule by which a table style gives a cell its text
      colour ([text_color]);
    - [Paragraph] parses its text as markup when it is constructed and
      raises [ValueError] on text that is not well formed; the parser's
      verdict is the parameter [markup_ok] of [generate_pdf], consulted for
      the one paragraph whose text comes from the payload (the other
      paragraphs are fixed plain text);
    - Werkzeug refuses a response header whose value holds a line break;
    - the SMTP session is an oracle for the outcome of each call, the clock
      is the formatted date passed to [generate_pdf], and console output and
      SMTP calls are recorded in a trace of [event]s. *)

From Stdlib Require Import ZArith List Bool Ascii String Lia.
From Stdlib Require Import Floats.SpecFloat DecimalString QArith_base Qabs.
From stdpp Require Import base option gmap strings.

Set Warnings "-register-all".

Local Open Scope string_scope.
Local Open Scope Z_scope.

(** ** Exceptions and results *)

Inductive exn : Type :=
| TypeError
| ValueError
| OverflowError
| AttributeError
| TransportError (detail : string).

Inductive result (A : Type) : Type :=
| Ok (a : A)
| Raise (e : exn).

Arguments Ok {A} a.
Arguments Raise {A} e.

Definition bind {A B : Type} (r : result A) (k : A -> result B) : result B :=
  match r with
  | Ok a => k a
  | Raise e => Raise e
  end.

Notation "x <- r ;; k" := (bind r (fun x => k))
  (at level 100, r at next level, right associativity).

Definition raises {A : Type} (r : result A) : Prop :=
  exists e, r = Raise e.

(** ** Python values *)

Inductive pyval : Type :=
| VNone
| VBool (b : bool)
| VInt (z : Z)
| VFloat (f : spec_float)
| VStr (s : string)
| VList (items : list pyval)
| VDict (items : list (string * pyval)).

(** [data.get(key, default)]: the default stands in for an absent key only;
    a key bound to [None] yields [None]. *)
Definition dict_get (data : gmap string pyval) (key : string) (default : pyval) : pyval :=
  match data !! key with
  | Some v => v
  | None => default
  end.

(** Truth value of an object, as tested by [if] and [and]. *)
Definition float_nonzero (f : spec_float) : bool :=
  match f with
  | S754_zero _ => false
  | _ => true
  end.

Definition truthy (v : pyval) : bool :=
  match v with
  | VNone => false
  | VBool b => b
  | VInt z => negb (z =? 0)
  | VFloat f => float_nonzero f
  | VStr s => negb (String.eqb s "")
  | VList l => match l with nil => false | _ => true end
  | VDict d => match d with nil => false | _ => true end
  end.

(** ** Numbers *)

Definition prec : Z := 53.
Definition emax : Z := 1024.

Inductive pynum : Type :=
| NInt (z : Z)
| NFloat (f : spec_float).

Definition as_num (v : pyval) : option pynum :=
  match v with
  | VBool b => Some (NInt (Z.b2z b))
  | VInt z => Some (NInt z)
  | VFloat f => Some (NFloat f)
  | _ => None
  end.

Definition of_num (n : pynum) : pyval :=
  match n with
  | NInt z => VInt z
  | NFloat f => VFloat f
  end.

(** The exact value of a number: Python compares an [int] with a [float]
    by value, without rounding the [int]. *)
Inductive xreal : Type :=
| XNan
| XNegInf
| XPosInf
| XFin (m e : Z).   (* m * 2^e *)

Definition signed (s : bool) (m : positive) : Z :=
  if s then Z.neg m else Z.pos m.

Definition float_value (f : spec_float) : xreal :=
  match f with
  | S754_nan => XNan
  | S754_infinity s => if s then XNegInf else XPosInf
  | S754_zero _ => XFin 0 0
  | S754_finite s m e => XFin (signed s m) e
  end.

Definition num_value (n : pynum) : xreal :=
  match n with
  | NInt z => XFin z 0
  | NFloat f => float_value f
  end.

Definition xcompare (a b : xreal) : option comparison :=
  match a, b with
  | XNan, _ | _, XNan => None
  | XNegInf, XNegInf => Some Eq
  | XNegInf, _ => Some Lt
  | _, XNegInf => Some Gt
  | XPosInf, XPosInf => Some Eq
  | XPosInf, _ => Some Gt
  | _, XPosInf => Some Lt
  | XFin m1 e1, XFin m2 e2 =>
      let e := Z.min e1 e2 in
      Some (Z.compare (m1 * 2 ^ (e1 - e)) (m2 * 2 ^ (e2 - e)))
  end.

Definition num_compare (a b : pynum) : option comparison :=
  xcompare (num_value a) (num_value b).

(** [a >= b], [a <= b], [a > b] on numbers; every comparison with a NaN is
    false. *)
Definition num_ge (a b : pynum) : bool :=
  match num_compare a b with
  | Some Gt | Some Eq => true
  | _ => false
  end.

Definition num_le (a b : pynum) : bool :=
  match num_compare a b with
  | Some Lt | Some Eq => true
  | _ => false
  end.

Definition num_gt (a b : pynum) : bool :=
  match num_compare a b with
  | Some Gt => true
  | _ => false
  end.

Definition num_truthy (n : pynum) : bool := truthy (of_num n).

(** [float(z)]: round to nearest, ties to even; an [int] beyond the range of
    binary64 raises. *)
Definition int_to_float (z : Z) : result spec_float :=
  match binary_normalize prec emax z 0 false with
  | S754_infinity _ => Raise OverflowError
  | f => Ok f
  end.

(** A decimal literal [digits * 10^-scale] of the source, correctly rounded:
    both operands of the division are exact in binary64. *)
Definition float_of_int (z : Z) : spec_float :=
  binary_normalize prec emax z 0 false.

Definition decimal_literal (digits : Z) (scale : Z) : spec_float :=
  SFdiv prec emax (float_of_int digits) (float_of_int (10 ^ scale)).

Definition lit_0_08 : spec_float := decimal_literal 8 2.
Definition lit_0_06 : spec_float := decimal_literal 6 2.
Definition lit_0_10 : spec_float := decimal_literal 10 2.
Definition lit_0_01 : spec_float := decimal_literal 1 2.
Definition lit_1_25 : spec_float := decimal_literal 125 2.
Definition lit_1_0 : spec_float := decimal_literal 10 1.

(** ** Arithmetic of the expressions in [generate_pdf] *)

(** Sequence repetition [s * n]: the count must fit a machine index; a count
    below one gives the empty sequence.  Memory exhaustion is not modelled. *)
Definition index_ok (n : Z) : bool :=
  (- 2 ^ 63 <=? n) && (n <? 2 ^ 63).

Fixpoint repeat_string (s : string) (n : nat) : string :=
  match n with
  | O => ""
  | S n' => s ++ repeat_string s n'
  end.

Fixpoint repeat_list {A : Type} (l : list A) (n : nat) : list A :=
  match n with
  | O => nil
  | S n' => (l ++ repeat_list l n')%list
  end.

Definition seq_repeat (v : pyval) (n : Z) : result pyval :=
  if index_ok n then
    match v with
    | VStr s => Ok (VStr (repeat_string s (Z.to_nat n)))
    | VList l => Ok (VList (repeat_list l (Z.to_nat n)))
    | _ => Raise TypeError
    end
  else Raise OverflowError.

Definition num_to_float (n : pynum) : result spec_float :=
  match n with
  | NInt z => int_to_float z
  | NFloat f => Ok f
  end.

Definition num_mul (a b : pynum) : result pynum :=
  match a, b with
  | NInt x, NInt y => Ok (NInt (x * y))
  | _, _ =>
      fa <- num_to_float a ;;
      fb <- num_to_float b ;;
      Ok (NFloat (SFmul prec emax fa fb))
  end.

Definition num_sub (a b : pynum) : result pynum :=
  match a, b with
  | NInt x, NInt y => Ok (NInt (x - y))
  | _, _ =>
      fa <- num_to_float a ;;
      fb <- num_to_float b ;;
      Ok (NFloat (SFsub prec emax fa fb))
  end.

Definition is_seq (v : pyval) : bool :=
  match v with
  | VStr _ | VList _ => true
  | _ => false
  end.

Definition as_index (v : pyval) : option Z :=
  match v with
  | VBool b => Some (Z.b2z b)
  | VInt z => Some z
  | _ => None
  end.

(** [a * b] *)
Definition py_mul (a b : pyval) : result pyval :=
  match as_num a, as_num b with
  | Some x, Some y => r <- num_mul x y ;; Ok (of_num r)
  | _, _ =>
      if is_seq a then
        match as_index b with
        | Some n => seq_repeat a n
        | None => Raise TypeError
        end
      else if is_seq b then
        match as_index a with
        | Some n => seq_repeat b n
        | None => Raise TypeError
        end
      else Raise TypeError
  end.

(** [a - b] *)
Definition py_sub (a b : pyval) : result pyval :=
  match as_num a, as_num b with
  | Some x, Some y => r <- num_sub x y ;; Ok (of_num r)
  | _, _ => Raise TypeError
  end.

(** [a >= b], [a <= b], [a > b] where one side is a numeric literal: any
    operand that is not a number raises. *)
Definition py_cmp (op : pynum -> pynum -> bool) (a b : pyval) : result bool :=
  match as_num a, as_num b with
  | Some x, Some y => Ok (op x y)
  | _, _ => Raise TypeError
  end.

Definition py_ge := py_cmp num_ge.
Definition py_le := py_cmp num_le.
Definition py_gt := py_cmp num_gt.

(** [a == 'literal'] *)
Definition py_eq_str (a : pyval) (s : string) : bool :=
  match a with
  | VStr s' => String.eqb s' s
  | _ => false
  end.

(** ** Decimal output *)

Definition decimal (n : Z) : string :=
  DecimalString.NilZero.string_of_uint (N.to_uint (Z.to_N n)).

(** Digits, least significant first, with a comma after every third digit
    that is followed by another one. *)
Fixpoint commas (rev_digits : list ascii) : list ascii :=
  match rev_digits with
  | a :: b :: c :: (_ :: _) as rest => a :: b :: c :: ","%char :: commas rest
  | l => l
  end.

Definition group_thousands (digits : string) : string :=
  string_of_list_ascii (rev (commas (rev (list_ascii_of_string digits)))).

Definition round_half_even (n d : Z) : Z :=
  let q := n / d in
  match 2 * (n mod d) ?= d with
  | Lt => q
  | Gt => q + 1
  | Eq => if Z.even q then q else q + 1
  end.

(** [m * 2^e * 10^p], rounded to an integer, ties to even. *)
Definition scaled (m : positive) (e : Z) (p : nat) : Z :=
  if 0 <=? e then Z.pos m * 2 ^ e * 10 ^ Z.of_nat p
  else round_half_even (Z.pos m * 10 ^ Z.of_nat p) (2 ^ (- e)).

Definition pad_zeros (width : nat) (s : string) : string :=
  repeat_string "0" (width - String.length s) ++ s.

Definition fixed_point (n : Z) (p : nat) (grouped : bool) : string :=
  let whole := decimal (n / 10 ^ Z.of_nat p) in
  (if grouped then group_thousands whole else whole) ++
  match p with
  | O => ""
  | _ => "." ++ pad_zeros p (decimal (n mod 10 ^ Z.of_nat p))
  end.

Definition sign_str (s : bool) : string := if s then "-" else "".

(** Presentation type ['f'] with precision [p], with or without [','] *)
Definition format_float_f (grouped : bool) (p : nat) (f : spec_float) : string :=
  match f with
  | S754_nan => "nan"
  | S754_infinity s => sign_str s ++ "inf"
  | S754_zero s => sign_str s ++ fixed_point 0 p grouped
  | S754_finite s m e => sign_str s ++ fixed_point (scaled m e p) p grouped
  end.

(** [format(v, ',.pf')] or [format(v, '.pf')]: an [int] is first converted to
    [float]; a [str] rejects the code ['f']; other objects reject any
    non-empty format string. *)
Definition format_f (grouped : bool) (p : nat) (v : pyval) : result string :=
  match v with
  | VFloat f => Ok (format_float_f grouped p f)
  | VInt z => f <- int_to_float z ;; Ok (format_float_f grouped p f)
  | VBool b => f <- int_to_float (Z.b2z b) ;; Ok (format_float_f grouped p f)
  | VStr _ => Raise ValueError
  | VNone | VList _ | VDict _ => Raise TypeError
  end.

(** ** Formatting helpers *)

Definition format_currency (amount : pyval) : result string :=
  match amount with
  | VNone => Ok "$0"
  | _ => s <- format_f true 0 amount ;; Ok ("$" ++ s)
  end.

Definition format_percent (value : pyval) : result string :=
  match value with
  | VNone => Ok "0.00%"
  | _ =>
      x <- py_mul value (VInt 100) ;;
      s <- format_f false 2 x ;;
      Ok (s ++ "%")
  end.

(** ** Brand colours and the classification helper *)

Inductive color : Type :=
| HexColor (hex : string).

Definition NAVY : color := HexColor "#1a3e5c".
Definition CYAN : color := HexColor "#00a8e1".
Definition WHITE : color := HexColor "#ffffff".
Definition LIGHT_GRAY : color := HexColor "#f4f4f4".
Definition DARK_GRAY : color := HexColor "#333333".
Definition SUCCESS : color := HexColor "#28a745".
Definition WARNING : color := HexColor "#ffc107".
Definition DANGER : color := HexColor "#dc3545".

(** [warn_threshold and value <op> warn_threshold]: [None] and a zero
    threshold are both false in a condition. *)
Definition get_status_color (value good_threshold : pynum)
    (warn_threshold : option pynum) (higher_is_better : bool) : color :=
  if higher_is_better then
    if num_ge value good_threshold then SUCCESS
    else if match warn_threshold with
            | Some w => num_truthy w && num_ge value w
            | None => false
            end then WARNING
    else DANGER
  else
    if num_le value good_threshold then SUCCESS
    else if match warn_threshold with
            | Some w => num_truthy w && num_le value w
            | None => false
            end then WARNING
    else DANGER.

(** ** Text, cells, tables and flowables

    The characters of [str(v)] for a float or a container, of
    [format(x, ',')] for a [float] and of [str(e)] for an exception come from
    Python's printers; they are kept as fragments rather than spelled out. *)

Inductive frag : Type :=
| Chars (s : string)
| StrOf (v : pyval)
| GroupedOf (f : spec_float)
| ErrOf (e : exn).

Definition text : Type := list frag.

Notation "a +++ b" := (@app frag a b) (at level 60, right associativity).

(** [str(z)]; an [int] of the payload is within the conversion limit. *)
Definition int_str (z : Z) : string :=
  sign_str (z <? 0) ++ decimal (Z.abs z).

Definition py_str (v : pyval) : text :=
  match v with
  | VStr s => [Chars s]
  | VNone => [Chars "None"]
  | VBool b => [Chars (if b then "True" else "False")]
  | VInt z => [Chars (int_str z)]
  | _ => [StrOf v]
  end.

(** [format(v, ',')] *)
Definition grouped_int (z : Z) : string :=
  sign_str (z <? 0) ++ group_thousands (decimal (Z.abs z)).

Definition format_grouped (v : pyval) : result text :=
  match v with
  | VInt z => Ok [Chars (grouped_int z)]
  | VBool b => Ok [Chars (grouped_int (Z.b2z b))]
  | VFloat f => Ok [GroupedOf f]
  | VStr _ => Raise ValueError
  | VNone | VList _ | VDict _ => Raise TypeError
  end.

Inductive cell : Type :=
| Txt (t : text)
| Obj (v : pyval).

Definition lit (s : string) : cell := Txt [Chars s].

Definition cell_is (c : cell) (s : string) : bool :=
  match c with
  | Txt [Chars s'] => String.eqb s' s
  | Obj v => py_eq_str v s
  | _ => false
  end.

(** [c in [s1, s2, ...]] *)
Definition cell_in (c : cell) (labels : list string) : bool :=
  existsb (cell_is c) labels.

Inductive style_attr : Type :=
| FONTNAME (name : string)
| FONTSIZE (size : Z)
| TEXTCOLOR (c : color)
| BACKGROUND (c : color)
| ALIGN (a : string)
| BOTTOMPADDING (n : Z)
| TOPPADDING (n : Z)
| LINEBELOW (width : Q) (c : color)
| GRID (width : Q) (c : color).

(** A [TableStyle] command [(op, (sc, sr), (ec, er), ...)]: columns first,
    negative coordinates count from the end. *)
Record style_cmd : Type := Cmd {
  attr : style_attr;
  start : Z * Z;
  stop : Z * Z
}.

Record table : Type := MkTable {
  rows : list (list cell);
  colWidths : list Q;
  commands : list style_cmd
}.

Definition inch : Q := 72 # 1.

Definition Table (data : list (list cell)) (widths : list Q) : table :=
  {| rows := data; colWidths := widths; commands := [] |}.

Definition setStyle (t : table) (cmds : list style_cmd) : table :=
  {| rows := rows t; colWidths := colWidths t; commands := commands t ++ cmds |}.

Definition nrows (t : table) : Z := Z.of_nat (length (rows t)).
Definition ncols (t : table) : Z :=
  match rows t with
  | r :: _ => Z.of_nat (length r)
  | [] => 0
  end.

Definition from_end (n i : Z) : Z := if i <? 0 then i + n else i.

Definition covers (t : table) (c : style_cmd) (col row : Z) : bool :=
  (from_end (ncols t) (fst (start c)) <=? col) && (col <=? from_end (ncols t) (fst (stop c))) &&
  (from_end (nrows t) (snd (start c)) <=? row) && (row <=? from_end (nrows t) (snd (stop c))).

(** The text colour the renderer uses for a cell: the last [TEXTCOLOR]
    command whose range covers it; [None] is the library default. *)
Definition text_color (t : table) (col row : Z) : option color :=
  fold_left
    (fun acc c =>
       match attr c with
       | TEXTCOLOR k => if covers t c col row then Some k else acc
       | _ => acc
       end)
    (commands t) None.

Definition cell_at (t : table) (col row : Z) : option cell :=
  match nth_error (rows t) (Z.to_nat row) with
  | Some r => nth_error r (Z.to_nat col)
  | None => None
  end.

Inductive align : Type := TA_LEFT | TA_CENTER | TA_RIGHT.

Inductive ps_attr : Type :=
| fontSize (n : Z)
| textColor (c : color)
| spaceBefore (n : Z)
| spaceAfter (n : Z)
| alignment (a : align)
| fontName (name : string).

Inductive ParagraphStyle : Type :=
| SampleStyle (name : string)
| MkStyle (name : string) (parent : ParagraphStyle) (attrs : list ps_attr).

Inductive flowable : Type :=
| Paragraph (t : text) (style : ParagraphStyle)
| Spacer (width height : Z)
| TableFlow (t : table).

Record SimpleDocTemplate : Type := {
  pagesize : Q * Q;
  rightMargin : Q;
  leftMargin : Q;
  topMargin : Q;
  bottomMargin : Q
}.

Definition letter : Q * Q := (612 # 1, 792 # 1)%Q.

Record pdf_job : Type := {
  doc : SimpleDocTemplate;
  story : list flowable
}.

(** [enumerate(l, start)] *)
Fixpoint enumerate {A : Type} (start : Z) (l : list A) : list (Z * A) :=
  match l with
  | [] => []
  | x :: l' => (start, x) :: enumerate (start + 1) l'
  end.

(** ** [generate_pdf]: the report builder *)

Definition title_style : ParagraphStyle :=
  MkStyle "CustomTitle" (SampleStyle "Heading1")
    [fontSize 24; textColor NAVY; spaceAfter 6; alignment TA_CENTER; fontName "Helvetica-Bold"].

Definition subtitle_style : ParagraphStyle :=
  MkStyle "CustomSubtitle" (SampleStyle "Normal")
    [fontSize 12; textColor DARK_GRAY; spaceAfter 20; alignment TA_CENTER].

Definition section_style : ParagraphStyle :=
  MkStyle "SectionHeader" (SampleStyle "Heading2")
    [fontSize 14; textColor NAVY; spaceBefore 20; spaceAfter 10; fontName "Helvetica-Bold"].

Definition normal_style : ParagraphStyle :=
  MkStyle "CustomNormal" (SampleStyle "Normal") [fontSize 10; textColor DARK_GRAY].

Definition footer_style : ParagraphStyle :=
  MkStyle "Footer" (SampleStyle "Normal")
    [fontSize 9; textColor DARK_GRAY; alignment TA_CENTER; spaceAfter 5].

(** [Paragraph(text, style)] for a text that comes from the payload: the
    constructor parses the markup and raises [ValueError] when it is not
    well formed. *)
Definition parsed (markup_ok : text -> bool) (t : text) (style : ParagraphStyle)
    : result flowable :=
  if markup_ok t then Ok (Paragraph t style) else Raise ValueError.

Definition header (markup_ok : text -> bool) (today : string)
    (data : gmap string pyval) : result (list flowable) :=
  prepared_for <-
    parsed markup_ok
      ([Chars "Prepared for: "] +++ py_str (dict_get data "userName" (VStr "N/A")) +++
       [Chars "<br/>Date: "; Chars today])
      (MkStyle "PreparedFor" normal_style [alignment TA_CENTER; spaceAfter 20]) ;;
  Ok [ Paragraph [Chars "THE EDMUND BOGEN TEAM"] title_style;
       Paragraph [Chars "AT DOUGLAS ELLIMAN REAL ESTATE"] subtitle_style;
       Spacer 1 10;
       Paragraph [Chars "INVESTMENT PROPERTY ANALYSIS"]
         (MkStyle "ReportTitle" (SampleStyle "Heading1")
            [fontSize 20; textColor CYAN; spaceAfter 10; alignment TA_CENTER; fontName "Helvetica-Bold"]);
       prepared_for;
       Spacer 1 10 ].

(** *** Property summary *)

Definition address (data : gmap string pyval) : text :=
  py_str (dict_get data "propertyAddress" (VStr "N/A")) +++ [Chars ", "] +++
  py_str (dict_get data "propertyCity" (VStr "")) +++ [Chars ", "] +++
  py_str (dict_get data "propertyState" (VStr "FL")) +++ [Chars " "] +++
  py_str (dict_get data "propertyZip" (VStr "")).

Definition property_data (data : gmap string pyval) : result (list (list cell)) :=
  sqft <- format_grouped (dict_get data "sqft" (VInt 0)) ;;
  Ok [ [lit "Address:"; Txt (address data)];
       [lit "Property Type:"; Obj (dict_get data "propertyType" (VStr "N/A"))];
       [lit "Units:"; Txt (py_str (dict_get data "numUnits" (VInt 1)))];
       [lit "Bedrooms / Bathrooms:";
        Txt (py_str (dict_get data "bedrooms" (VStr "N/A")) +++ [Chars " / "] +++
             py_str (dict_get data "bathrooms" (VStr "N/A")))];
       [lit "Square Footage:"; Txt (sqft +++ [Chars " SF"])];
       [lit "Year Built:"; Txt (py_str (dict_get data "yearBuilt" (VStr "N/A")))];
       [lit "Lot Size:"; Txt (py_str (dict_get data "lotSize" (VInt 0)) +++ [Chars " acres"])] ].

Definition property_table (data : gmap string pyval) : result table :=
  property_data <- property_data data ;;
  Ok (setStyle (Table property_data [2 * inch; (9 # 2) * inch]%Q)
        [ Cmd (FONTNAME "Helvetica-Bold") (0, 0) (0, -1);
          Cmd (FONTNAME "Helvetica") (1, 0) (1, -1);
          Cmd (FONTSIZE 10) (0, 0) (-1, -1);
          Cmd (TEXTCOLOR NAVY) (0, 0) (0, -1);
          Cmd (TEXTCOLOR DARK_GRAY) (1, 0) (1, -1);
          Cmd (BOTTOMPADDING 6) (0, 0) (-1, -1);
          Cmd (TOPPADDING 6) (0, 0) (-1, -1) ]).

(** *** Financial snapshot *)

Definition money (amount : pyval) : result cell :=
  s <- format_currency amount ;; Ok (lit s).

Definition financial_data (data : gmap string pyval) : result (list (list cell)) :=
  purchase <- money (dict_get data "purchasePrice" (VInt 0)) ;;
  rent <- money (dict_get data "grossRentMonthly" (VInt 0)) ;;
  down <- money (dict_get data "downPayment" (VInt 0)) ;;
  vacancy <- (x <- py_mul (dict_get data "grossRentMonthly" (VInt 0))
                          (dict_get data "vacancyRate" (VInt 0)) ;;
              y <- py_mul x (VInt (-1)) ;;
              money y) ;;
  closing <- money (dict_get data "closingCosts" (VInt 0)) ;;
  other <- money (dict_get data "otherIncomeMonthly" (VInt 0)) ;;
  rehab <- money (dict_get data "rehabCosts" (VInt 0)) ;;
  effective <- money (dict_get data "effectiveIncomeMonthly" (VInt 0)) ;;
  loan <- money (dict_get data "loanAmount" (VInt 0)) ;;
  expenses <- (x <- py_mul (dict_get data "totalExpensesMonthly" (VInt 0)) (VInt (-1)) ;;
               money x) ;;
  cash <- money (dict_get data "totalCashNeeded" (VInt 0)) ;;
  noi <- money (dict_get data "noiMonthly" (VInt 0)) ;;
  mortgage <- (x <- py_mul (dict_get data "monthlyPayment" (VInt 0)) (VInt (-1)) ;;
               money x) ;;
  Ok [ [lit "Purchase Price:"; purchase; lit "Monthly Rent:"; rent];
       [lit "Down Payment:"; down; lit "Vacancy Loss:"; vacancy];
       [lit "Closing Costs:"; closing; lit "Other Income:"; other];
       [lit "Rehab Costs:"; rehab; lit "Effective Income:"; effective];
       [lit "Loan Amount:"; loan; lit "Operating Expenses:"; expenses];
       [lit "Total Cash Needed:"; cash; lit "NOI (Monthly):"; noi];
       [lit ""; lit ""; lit "Mortgage Payment:"; mortgage] ].

Definition financial_table (data : gmap string pyval) : result table :=
  financial_data <- financial_data data ;;
  Ok (setStyle
        (Table financial_data [(3 # 2) * inch; (3 # 2) * inch; (3 # 2) * inch; (3 # 2) * inch]%Q)
        [ Cmd (FONTNAME "Helvetica-Bold") (0, 0) (0, -1);
          Cmd (FONTNAME "Helvetica-Bold") (2, 0) (2, -1);
          Cmd (FONTNAME "Helvetica") (1, 0) (1, -1);
          Cmd (FONTNAME "Helvetica") (3, 0) (3, -1);
          Cmd (FONTSIZE 9) (0, 0) (-1, -1);
          Cmd (TEXTCOLOR NAVY) (0, 0) (0, -1);
          Cmd (TEXTCOLOR NAVY) (2, 0) (2, -1);
          Cmd (ALIGN "RIGHT") (1, 0) (1, -1);
          Cmd (ALIGN "RIGHT") (3, 0) (3, -1);
          Cmd (BOTTOMPADDING 5) (0, 0) (-1, -1);
          Cmd (TOPPADDING 5) (0, 0) (-1, -1);
          Cmd (LINEBELOW (1 # 1) LIGHT_GRAY) (0, -1) (-1, -1) ]).

(** *** Cash-flow highlight

    [cf_color] is assigned from the sign of the monthly figure; the table
    style that follows does not mention it. *)

Definition cf_color (monthly_cf : pyval) : result color :=
  positive <- py_gt monthly_cf (VInt 0) ;;
  Ok (if positive then SUCCESS else DANGER).

Definition cashflow_table (data : gmap string pyval) : result table :=
  let monthly_cf := dict_get data "monthlyCashFlow" (VInt 0) in
  let annual_cf := dict_get data "annualCashFlow" (VInt 0) in
  cf_color <- cf_color monthly_cf ;;
  monthly <- money monthly_cf ;;
  annual <- money annual_cf ;;
  let cashflow_data :=
    [ [lit "MONTHLY CASH FLOW"; monthly];
      [lit "ANNUAL CASH FLOW"; annual] ] in
  Ok (setStyle (Table cashflow_data [(13 # 4) * inch; (13 # 4) * inch]%Q)
        [ Cmd (FONTNAME "Helvetica-Bold") (0, 0) (-1, -1);
          Cmd (FONTSIZE 12) (0, 0) (-1, -1);
          Cmd (TEXTCOLOR WHITE) (0, 0) (0, -1);
          Cmd (TEXTCOLOR WHITE) (1, 0) (1, -1);
          Cmd (BACKGROUND NAVY) (0, 0) (-1, -1);
          Cmd (ALIGN "CENTER") (0, 0) (-1, -1);
          Cmd (BOTTOMPADDING 12) (0, 0) (-1, -1);
          Cmd (TOPPADDING 12) (0, 0) (-1, -1) ]).

(** *** Key investment metrics *)

Definition metrics_data (data : gmap string pyval) : result (list (list cell)) :=
  let cap_rate := dict_get data "capRate" (VInt 0) in
  let coc := dict_get data "cashOnCash" (VInt 0) in
  let dscr := dict_get data "dscr" (VInt 0) in
  let grm := dict_get data "grm" (VInt 0) in
  let one_pct := dict_get data "onePercentRule" (VInt 0) in
  cap_value <- format_percent cap_rate ;;
  cap_status <- (good <- py_ge cap_rate (VFloat lit_0_08) ;;
                 if good then Ok "GOOD"
                 else (average <- py_ge cap_rate (VFloat lit_0_06) ;;
                       Ok (if average then "AVERAGE" else "LOW"))) ;;
  coc_value <- format_percent coc ;;
  coc_status <- (good <- py_ge coc (VFloat lit_0_10) ;;
                 if good then Ok "GOOD"
                 else (average <- py_ge coc (VFloat lit_0_06) ;;
                       Ok (if average then "AVERAGE" else "LOW"))) ;;
  dscr_value <- format_f false 2 dscr ;;
  dscr_status <- (strong <- py_ge dscr (VFloat lit_1_25) ;;
                  if strong then Ok "STRONG"
                  else (marginal <- py_ge dscr (VFloat lit_1_0) ;;
                        Ok (if marginal then "MARGINAL" else "WEAK"))) ;;
  grm_value <- format_f false 2 grm ;;
  grm_status <- (good <- py_le grm (VInt 12) ;;
                 Ok (if good then "GOOD" else "HIGH")) ;;
  one_value <- format_percent one_pct ;;
  one_status <- (pass <- py_ge one_pct (VFloat lit_0_01) ;;
                 Ok (if pass then "PASS" else "FAIL")) ;;
  Ok [ [lit "Metric"; lit "Value"; lit "Target"; lit "Status"];
       [lit "Cap Rate"; lit cap_value; lit ">= 8%"; lit cap_status];
       [lit "Cash-on-Cash Return"; lit coc_value; lit ">= 10%"; lit coc_status];
       [lit "Debt Service Coverage Ratio"; lit dscr_value; lit ">= 1.25x"; lit dscr_status];
       [lit "Gross Rent Multiplier"; lit grm_value; lit "<= 12"; lit grm_status];
       [lit "1% Rule"; lit one_value; lit ">= 1%"; lit one_status] ].

(** One turn of the loop that colour-codes the status column. *)
Definition color_status (metrics_table : table) (ir : Z * list cell) : table :=
  let '(i, row) := ir in
  let status := nth 3 row (lit "") in
  if cell_in status ["GOOD"; "STRONG"; "PASS"] then
    setStyle metrics_table [Cmd (TEXTCOLOR SUCCESS) (3, i) (3, i)]
  else if cell_in status ["AVERAGE"; "MARGINAL"] then
    setStyle metrics_table [Cmd (TEXTCOLOR WARNING) (3, i) (3, i)]
  else
    setStyle metrics_table [Cmd (TEXTCOLOR DANGER) (3, i) (3, i)].

Definition metrics_table (data : gmap string pyval) : result table :=
  metrics_data <- metrics_data data ;;
  let metrics_table :=
    setStyle
      (Table metrics_data [(5 # 2) * inch; (5 # 4) * inch; (5 # 4) * inch; (3 # 2) * inch]%Q)
      [ Cmd (FONTNAME "Helvetica-Bold") (0, 0) (-1, 0);
        Cmd (FONTNAME "Helvetica") (0, 1) (-1, -1);
        Cmd (FONTSIZE 9) (0, 0) (-1, -1);
        Cmd (BACKGROUND NAVY) (0, 0) (-1, 0);
        Cmd (TEXTCOLOR WHITE) (0, 0) (-1, 0);
        Cmd (ALIGN "CENTER") (1, 0) (-1, -1);
        Cmd (BOTTOMPADDING 8) (0, 0) (-1, -1);
        Cmd (TOPPADDING 8) (0, 0) (-1, -1);
        Cmd (LINEBELOW (1 # 2) LIGHT_GRAY) (0, 0) (-1, -2);
        Cmd (GRID (1 # 2) LIGHT_GRAY) (0, 0) (-1, -1) ] in
  Ok (fold_left color_status (enumerate 1 (tl metrics_data)) metrics_table).

(** *** Quick rules check *)

Definition rules_data (data : gmap string pyval) : list (list cell) :=
  [ [lit "Rule"; lit "Result"; lit "Description"];
    [lit "1% Rule";
     lit (if truthy (dict_get data "rule1Pass" (VBool false)) then "PASS" else "FAIL");
     lit "Monthly rent should be >= 1% of purchase price"];
    [lit "2% Rule";
     lit (if truthy (dict_get data "rule2Pass" (VBool false)) then "PASS" else "FAIL");
     lit "Monthly rent should be >= 2% of purchase price (strong cash flow)"];
    [lit "50% Rule";
     lit (if truthy (dict_get data "rule50Pass" (VBool false)) then "PASS" else "REVIEW");
     lit "Operating expenses should be <= 50% of rent"];
    [lit "70% Rule (Flip)";
     lit (if truthy (dict_get data "rule70Pass" (VBool false)) then "PASS" else "FAIL");
     lit "Purchase + rehab should be <= 70% of ARV"];
    [lit "Cash Flow Positive";
     lit (if truthy (dict_get data "cashFlowPositivePass" (VBool false)) then "YES" else "NO");
     lit "Property generates positive cash flow after all expenses"] ].

(** One turn of the loop that colour-codes the results. *)
Definition color_result (rules_table : table) (ir : Z * list cell) : table :=
  let '(i, row) := ir in
  let result := nth 1 row (lit "") in
  if cell_in result ["PASS"; "YES"] then
    setStyle rules_table
      [ Cmd (TEXTCOLOR SUCCESS) (1, i) (1, i);
        Cmd (FONTNAME "Helvetica-Bold") (1, i) (1, i) ]
  else if cell_is result "REVIEW" then
    setStyle rules_table
      [ Cmd (TEXTCOLOR WARNING) (1, i) (1, i);
        Cmd (FONTNAME "Helvetica-Bold") (1, i) (1, i) ]
  else
    setStyle rules_table
      [ Cmd (TEXTCOLOR DANGER) (1, i) (1, i);
        Cmd (FONTNAME "Helvetica-Bold") (1, i) (1, i) ].

Definition rules_table (data : gmap string pyval) : table :=
  let rules_data := rules_data data in
  let rules_table :=
    setStyle (Table rules_data [(3 # 2) * inch; 1 * inch; 4 * inch]%Q)
      [ Cmd (FONTNAME "Helvetica-Bold") (0, 0) (-1, 0);
        Cmd (FONTNAME "Helvetica") (0, 1) (-1, -1);
        Cmd (FONTSIZE 9) (0, 0) (-1, -1);
        Cmd (BACKGROUND NAVY) (0, 0) (-1, 0);
        Cmd (TEXTCOLOR WHITE) (0, 0) (-1, 0);
        Cmd (ALIGN "CENTER") (1, 0) (1, -1);
        Cmd (BOTTOMPADDING 8) (0, 0) (-1, -1);
        Cmd (TOPPADDING 8) (0, 0) (-1, -1);
        Cmd (GRID (1 # 2) LIGHT_GRAY) (0, 0) (-1, -1) ] in
  fold_left color_result (enumerate 1 (tl rules_data)) rules_table.

(** *** Deal verdict *)

Definition verdict_color (verdict : pyval) : color :=
  if py_eq_str verdict "STRONG BUY" then SUCCESS
  else if py_eq_str verdict "CONSIDER" then CYAN
  else if py_eq_str verdict "REVIEW" then WARNING
  else DANGER.

Definition verdict_table (data : gmap string pyval) : table :=
  let verdict := dict_get data "verdict" (VStr "REVIEW") in
  let verdict_color := verdict_color verdict in
  let verdict_data := [ [lit "DEAL VERDICT"; Obj verdict] ] in
  setStyle (Table verdict_data [(13 # 4) * inch; (13 # 4) * inch]%Q)
    [ Cmd (FONTNAME "Helvetica-Bold") (0, 0) (-1, -1);
      Cmd (FONTSIZE 14) (0, 0) (0, 0);
      Cmd (FONTSIZE 18) (1, 0) (1, 0);
      Cmd (TEXTCOLOR WHITE) (0, 0) (0, 0);
      Cmd (TEXTCOLOR verdict_color) (1, 0) (1, 0);
      Cmd (BACKGROUND NAVY) (0, 0) (-1, -1);
      Cmd (ALIGN "CENTER") (0, 0) (-1, -1);
      Cmd (BOTTOMPADDING 15) (0, 0) (-1, -1);
      Cmd (TOPPADDING 15) (0, 0) (-1, -1) ].

(** *** Financing details *)

Definition financing_data (data : gmap string pyval) : result (list (list cell)) :=
  rate <- format_percent (dict_get data "interestRate" (VInt 0)) ;;
  down <- (x <- py_mul (dict_get data "downPaymentPercent" (VInt 0)) (VInt 100) ;;
           format_f false 0 x) ;;
  ltv <- (x <- py_sub (VInt 1) (dict_get data "downPaymentPercent" (VInt 0)) ;;
          y <- py_mul x (VInt 100) ;;
          format_f false 0 y) ;;
  payment <- money (dict_get data "monthlyPayment" (VInt 0)) ;;
  debt <- money (dict_get data "annualDebtService" (VInt 0)) ;;
  Ok [ [lit "Interest Rate:"; lit rate];
       [lit "Loan Term:"; Txt (py_str (dict_get data "loanTermYears" (VInt 30)) +++ [Chars " years"])];
       [lit "Down Payment:"; lit (down ++ "%")];
       [lit "LTV Ratio:"; lit (ltv ++ "%")];
       [lit "Monthly P&I:"; payment];
       [lit "Annual Debt Service:"; debt] ].

Definition financing_table (data : gmap string pyval) : result table :=
  financing_data <- financing_data data ;;
  Ok (setStyle (Table financing_data [2 * inch; 2 * inch]%Q)
        [ Cmd (FONTNAME "Helvetica-Bold") (0, 0) (0, -1);
          Cmd (FONTSIZE 10) (0, 0) (-1, -1);
          Cmd (TEXTCOLOR NAVY) (0, 0) (0, -1);
          Cmd (ALIGN "RIGHT") (1, 0) (1, -1);
          Cmd (BOTTOMPADDING 6) (0, 0) (-1, -1);
          Cmd (TOPPADDING 6) (0, 0) (-1, -1) ]).

(** *** Footer and assembly *)

Definition footer : list flowable :=
  [ Paragraph [Chars (repeat_string "─" 80)] footer_style;
    Spacer 1 10;
    Paragraph [Chars "Compliments of The Edmund Bogen Team at Douglas Elliman Real Estate"] footer_style;
    Paragraph [Chars "From Palm Beach to Miami, we can help you find your next investment property."] footer_style;
    Paragraph [Chars "www.bogenhomes.com"] (MkStyle "FooterLink" footer_style [textColor CYAN]);
    Spacer 1 10;
    Paragraph
      [Chars ("DISCLAIMER: This analysis is for informational purposes only. Actual results may vary. " ++
              "Please consult with qualified professionals before making investment decisions.")]
      (MkStyle "Disclaimer" footer_style [fontSize 7; textColor (HexColor "#888888")]) ].

(** The report up to [doc.build(story)]; [today] is the formatted date and
    [markup_ok] the verdict of the paragraph parser. *)
Definition generate_pdf (markup_ok : text -> bool) (today : string)
    (data : gmap string pyval) : result pdf_job :=
  let doc :=
    {| pagesize := letter;
       rightMargin := (3 # 4) * inch; leftMargin := (3 # 4) * inch;
       topMargin := (3 # 4) * inch; bottomMargin := (3 # 4) * inch |}%Q in
  header <- header markup_ok today data ;;
  property_table <- property_table data ;;
  financial_table <- financial_table data ;;
  cashflow_table <- cashflow_table data ;;
  metrics_table <- metrics_table data ;;
  let rules_table := rules_table data in
  let verdict_table := verdict_table data in
  financing_table <- financing_table data ;;
  Ok {| doc := doc;
        story :=
          (header ++
           [ Paragraph [Chars "PROPERTY SUMMARY"] section_style;
             TableFlow property_table; Spacer 1 15;
             Paragraph [Chars "FINANCIAL SNAPSHOT"] section_style;
             TableFlow financial_table; Spacer 1 10;
             TableFlow cashflow_table; Spacer 1 20;
             Paragraph [Chars "KEY INVESTMENT METRICS"] section_style;
             TableFlow metrics_table; Spacer 1 20;
             Paragraph [Chars "QUICK RULES CHECK"] section_style;
             TableFlow rules_table; Spacer 1 20;
             TableFlow verdict_table; Spacer 1 30;
             Paragraph [Chars "FINANCING DETAILS"] section_style;
             TableFlow financing_table; Spacer 1 30 ] ++
           footer)%list |}.

(** ** Effects: console output and the SMTP session *)

Definition bytes : Type := list Byte.byte.

Record message : Type := {
  msg_From : string;
  msg_To : pyval;
  msg_Subject : text;
  msg_body : text;
  attachment : bytes;
  attachment_filename : string
}.

Inductive event : Type :=
| Print (line : text)
| SMTP (host : string) (port : Z)
| starttls
| login (user password : string)
| send_message (msg : message)
| quit.

Definition is_transport (ev : event) : bool :=
  match ev with
  | Print _ => false
  | _ => true
  end.

(** A computation leaves a trace of events and returns or raises. *)
Definition io (A : Type) : Type := list event * result A.

Definition ret {A : Type} (a : A) : io A := ([], Ok a).

Definition lift {A : Type} (r : result A) : io A := ([], r).

Definition io_bind {A B : Type} (c : io A) (k : A -> io B) : io B :=
  match c with
  | (tr, Ok a) => let '(tr', r) := k a in ((tr ++ tr')%list, r)
  | (tr, Raise e) => (tr, Raise e)
  end.

Notation "x <~ c ;; k" := (io_bind c (fun x => k))
  (at level 100, c at next level, right associativity).

Definition print (line : text) : io unit := ([Print line], Ok tt).

(** [try: body except Exception as e: handler] *)
Definition try_except {A : Type} (body : io A) (handler : exn -> io A) : io A :=
  match body with
  | (tr, Ok a) => (tr, Ok a)
  | (tr, Raise e) => let '(tr', r) := handler e in ((tr ++ tr')%list, r)
  end.

(** What the mail server does at each call: [None] is success, [Some e] the
    exception the call raises. *)
Record smtp_server : Type := {
  on_connect : option exn;
  on_starttls : option exn;
  on_login : option exn;
  on_send_message : option exn;
  on_quit : option exn
}.

Definition call (ev : event) (outcome : option exn) : io unit :=
  ([ev], match outcome with None => Ok tt | Some e => Raise e end).

(** ** Attachment file names *)

(** [s.replace(old, new)] for a one-character [old] *)
Fixpoint replace (old : ascii) (new : string) (s : string) : string :=
  match s with
  | EmptyString => EmptyString
  | String c s' =>
      if Ascii.eqb c old then new ++ replace old new s'
      else String c (replace old new s')
  end.

(** [s[:n]] *)
Fixpoint slice_to (n : nat) (s : string) : string :=
  match n, s with
  | S n', String c s' => String c (slice_to n' s')
  | _, _ => EmptyString
  end.

(** Only a [str] has the method [replace]. *)
Definition str_receiver (v : pyval) : result string :=
  match v with
  | VStr s => Ok s
  | _ => Raise AttributeError
  end.

(** [generate_report]: [.replace(' ', '_').replace(',', '').replace('.', '')[:30]] *)
Definition safe_address_download (property_address : string) : string :=
  slice_to 30 (replace "." "" (replace "," "" (replace " " "_" property_address))).

(** [send_email]: [.replace(' ', '_').replace(',', '')[:30]] *)
Definition safe_address_email (property_address : string) : string :=
  slice_to 30 (replace "," "" (replace " " "_" property_address)).

Definition dquote : string := String (ascii_of_nat 34) EmptyString.

(** ** [generate_report]: the download route *)

Inductive response : Type :=
| PdfResponse (body : bytes) (headers : list (string * string))
| JsonError (status : Z) (error : exn).

(** [response.headers[name] = value]: a value that holds a line feed or a
    carriage return is refused with [ValueError]. *)
Fixpoint has_line_break (s : string) : bool :=
  match s with
  | EmptyString => false
  | String c s' => Ascii.eqb c "010" || Ascii.eqb c "013" || has_line_break s'
  end.

Definition set_header (name value : string) : result (string * string) :=
  if has_line_break value then Raise ValueError else Ok (name, value).

(** [render] stands for [doc.build] followed by [buffer.getvalue()];
    the payload is a JSON object. *)
Definition generate_report (markup_ok : text -> bool) (render : pdf_job -> result bytes)
    (today : string) (data : gmap string pyval) : io response :=
  try_except
    (pdf_buffer <~ lift (job <- generate_pdf markup_ok today data ;; render job) ;;
     let property_address := dict_get data "propertyAddress" (VStr "Investment_Property") in
     safe_address <~ lift (s <- str_receiver property_address ;; Ok (safe_address_download s)) ;;
     let filename := "Investment_Analysis_" ++ safe_address ++ ".pdf" in
     content_type <~ lift (set_header "Content-Type" "application/pdf") ;;
     content_disposition <~
       lift (set_header "Content-Disposition"
               ("attachment; filename=" ++ dquote ++ filename ++ dquote)) ;;
     ret (PdfResponse pdf_buffer [content_type; content_disposition]))
    (fun e =>
       _ <~ print [Chars "Error generating report: "; ErrOf e] ;;
       ret (JsonError 500 e)).

(** ** [send_email] *)

Record email_config : Type := {
  EMAIL_HOST : string;
  EMAIL_PORT : Z;
  EMAIL_USER : string;
  EMAIL_PASSWORD : string;
  EMAIL_FROM : string
}.

Definition configured (cfg : email_config) : bool :=
  negb (String.eqb (EMAIL_USER cfg) "") && negb (String.eqb (EMAIL_PASSWORD cfg) "").

Definition email_body (user_name property_address : pyval) : text :=
  [Chars "
Dear "] +++ py_str user_name +++ [Chars ",

Thank you for using the Edmund Bogen Team Investment Property Analyzer!

Please find attached your comprehensive investment analysis for:
"] +++ py_str property_address +++ [Chars "

This report includes:
• Property summary and financial snapshot
• Key investment metrics (Cap Rate, Cash-on-Cash, DSCR, GRM)
• Quick rules check (1%, 2%, 50%, 70% rules)
• Cash flow analysis
• Deal verdict and recommendation

If you have any questions about this analysis or would like to discuss investment opportunities in South Florida, please don't hesitate to reach out.

Best regards,

The Edmund Bogen Team
Douglas Elliman Real Estate
www.bogenhomes.com

---
From Palm Beach to Miami, we can help you find your next investment property.
    "].

Definition send_email (cfg : email_config) (server : smtp_server)
    (data : gmap string pyval) (pdf_buffer : bytes) : io bool :=
  let user_email := dict_get data "userEmail" VNone in
  let user_name := dict_get data "userName" VNone in
  let property_address := dict_get data "propertyAddress" (VStr "Investment Property") in
  if negb (configured cfg) then
    _ <~ print ([Chars "Email would be sent to: "] +++ py_str user_email) ;;
    _ <~ print ([Chars "PDF generated for: "] +++ py_str property_address) ;;
    ret true
  else
    safe_address <~ lift (s <- str_receiver property_address ;; Ok (safe_address_email s)) ;;
    let msg :=
      {| msg_From := EMAIL_FROM cfg;
         msg_To := user_email;
         msg_Subject := [Chars "Your Investment Property Analysis - "] +++ py_str property_address;
         msg_body := email_body user_name property_address;
         attachment := pdf_buffer;
         attachment_filename := "Investment_Analysis_" ++ safe_address ++ ".pdf" |} in
    try_except
      (_ <~ call (SMTP (EMAIL_HOST cfg) (EMAIL_PORT cfg)) (on_connect server) ;;
       _ <~ call starttls (on_starttls server) ;;
       _ <~ call (login (EMAIL_USER cfg) (EMAIL_PASSWORD cfg)) (on_login server) ;;
       _ <~ call (send_message msg) (on_send_message server) ;;
       _ <~ call quit (on_quit server) ;;
       _ <~ print ([Chars "Email sent successfully to "] +++ py_str user_email) ;;
       ret true)
      (fun e =>
         _ <~ print [Chars "Error sending email: "; ErrOf e] ;;
         lift (Raise e)).

(** * Vocabulary of the statements *)

(** ** Classification *)

(** [value] clears [threshold] in the favourable direction. *)
Definition clears (higher_is_better : bool) (value threshold : pynum) : bool :=
  if higher_is_better then num_ge value threshold else num_le value threshold.

(** A warn threshold that is supplied, true in a condition, and cleared. *)
Definition warn_cleared (higher_is_better : bool) (value : pynum)
    (warn_threshold : option pynum) : bool :=
  match warn_threshold with
  | Some w => num_truthy w && clears higher_is_better value w
  | None => false
  end.

(** ** Reading the payload *)

(** A number whose integers stay below [2^bits] in magnitude. *)
Definition in_range (bits : Z) (v : pyval) : bool :=
  match v with
  | VBool _ | VFloat _ => true
  | VInt z => Z.abs z <? 2 ^ bits
  | _ => false
  end.

(** The value [generate_pdf] reads for a metric: zero when the key is absent. *)
Definition metric (data : gmap string pyval) (key : string) : pyval :=
  dict_get data key (VInt 0).

(** The truth value the report reads for a rule: the value bound to the
    key, [False] when the key is absent. *)
Definition rule_passes (data : gmap string pyval) (key : string) : bool :=
  truthy (dict_get data key (VBool false)).

(** The fields [generate_pdf] formats, multiplies or compares as numbers. *)
Definition numeric_fields : list string :=
  [ "sqft"; "purchasePrice"; "grossRentMonthly"; "downPayment"; "vacancyRate";
    "closingCosts"; "otherIncomeMonthly"; "rehabCosts"; "effectiveIncomeMonthly";
    "loanAmount"; "totalExpensesMonthly"; "totalCashNeeded"; "noiMonthly";
    "monthlyPayment"; "monthlyCashFlow"; "annualCashFlow"; "capRate";
    "cashOnCash"; "dscr"; "grm"; "onePercentRule"; "interestRate";
    "downPaymentPercent"; "annualDebtService" ].

(** The second argument of every [data.get] in [generate_pdf]. *)
Definition defaults : gmap string pyval :=
  list_to_map
    [ ("userName", VStr "N/A"); ("propertyAddress", VStr "N/A");
      ("propertyCity", VStr ""); ("propertyState", VStr "FL");
      ("propertyZip", VStr ""); ("propertyType", VStr "N/A");
      ("numUnits", VInt 1); ("bedrooms", VStr "N/A"); ("bathrooms", VStr "N/A");
      ("sqft", VInt 0); ("yearBuilt", VStr "N/A"); ("lotSize", VInt 0);
      ("purchasePrice", VInt 0); ("grossRentMonthly", VInt 0);
      ("downPayment", VInt 0); ("vacancyRate", VInt 0);
      ("closingCosts", VInt 0); ("otherIncomeMonthly", VInt 0);
      ("rehabCosts", VInt 0); ("effectiveIncomeMonthly", VInt 0);
      ("loanAmount", VInt 0); ("totalExpensesMonthly", VInt 0);
      ("totalCashNeeded", VInt 0); ("noiMonthly", VInt 0);
      ("monthlyPayment", VInt 0); ("monthlyCashFlow", VInt 0);
      ("annualCashFlow", VInt 0); ("capRate", VInt 0); ("cashOnCash", VInt 0);
      ("dscr", VInt 0); ("grm", VInt 0); ("onePercentRule", VInt 0);
      ("rule1Pass", VBool false); ("rule2Pass", VBool false);
      ("rule50Pass", VBool false); ("rule70Pass", VBool false);
      ("cashFlowPositivePass", VBool false); ("verdict", VStr "REVIEW");
      ("interestRate", VInt 0); ("loanTermYears", VInt 30);
      ("downPaymentPercent", VInt 0); ("annualDebtService", VInt 0) ].

(** The payload of the end-to-end example of the specification. *)
Definition example_payload : gmap string pyval :=
  list_to_map
    [ ("purchasePrice", VInt 300000); ("grossRentMonthly", VInt 3000);
      ("vacancyRate", VFloat (decimal_literal 5 2));
      ("capRate", VFloat (decimal_literal 85 3));
      ("cashOnCash", VFloat (decimal_literal 11 2));
      ("dscr", VFloat (decimal_literal 13 1));
      ("grm", VFloat (decimal_literal 105 1));
      ("onePercentRule", VFloat (decimal_literal 1 2));
      ("monthlyCashFlow", VInt 250); ("annualCashFlow", VInt 3000);
      ("rule1Pass", VBool true); ("rule2Pass", VBool false);
      ("rule50Pass", VBool true); ("rule70Pass", VBool true);
      ("cashFlowPositivePass", VBool true); ("verdict", VStr "STRONG BUY") ].

(** ** Reading a table *)

(** The colour of a status label, and the command that sets it on a row. *)
Definition status_tint (status : cell) : color :=
  if cell_in status ["GOOD"; "STRONG"; "PASS"] then SUCCESS
  else if cell_in status ["AVERAGE"; "MARGINAL"] then WARNING
  else DANGER.

Definition status_cmd (ir : Z * list cell) : style_cmd :=
  Cmd (TEXTCOLOR (status_tint (nth 3 (snd ir) (lit "")))) (3, fst ir) (3, fst ir).

(** The status cell of a metrics row and the colour the renderer gives it. *)
Definition status_cell (t : table) (row : Z) : option cell * option color :=
  (cell_at t 3 row, text_color t 3 row).

(** The result cell of a rule row and the colour the renderer gives it. *)
Definition result_cell (t : table) (row : Z) : option cell * option color :=
  (cell_at t 1 row, text_color t 1 row).

(** The style commands of the cash-flow table. *)
Definition cashflow_style : list style_cmd :=
  [ Cmd (FONTNAME "Helvetica-Bold") (0, 0) (-1, -1);
    Cmd (FONTSIZE 12) (0, 0) (-1, -1);
    Cmd (TEXTCOLOR WHITE) (0, 0) (0, -1);
    Cmd (TEXTCOLOR WHITE) (1, 0) (1, -1);
    Cmd (BACKGROUND NAVY) (0, 0) (-1, -1);
    Cmd (ALIGN "CENTER") (0, 0) (-1, -1);
    Cmd (BOTTOMPADDING 12) (0, 0) (-1, -1);
    Cmd (TOPPADDING 12) (0, 0) (-1, -1) ].

(** ** Strings *)

(** [c in s] *)
Fixpoint contains (c : ascii) (s : string) : bool :=
  match s with
  | EmptyString => false
  | String c' s' => Ascii.eqb c' c || contains c s'
  end.

(** The characters of a string other than commas. *)
Definition strip_commas (l : list ascii) : list ascii :=
  List.filter (fun c => negb (Ascii.eqb c ",")) l.

(** ** Mail *)

Definition example_config : email_config :=
  {| EMAIL_HOST := "smtp.gmail.com";
     EMAIL_PORT := 587;
     EMAIL_USER := "reports@bogenhomes.com";
     EMAIL_PASSWORD := "app-password";
     EMAIL_FROM := "Edmund Bogen Team <info@bogenhomes.com>" |}.

Definition unconfigured : email_config :=
  {| EMAIL_HOST := "smtp.gmail.com";
     EMAIL_PORT := 587;
     EMAIL_USER := "";
     EMAIL_PASSWORD := "";
     EMAIL_FROM := "Edmund Bogen Team <info@bogenhomes.com>" |}.

(** A server on which every call succeeds, and one that rejects the login. *)
Definition accepting_server : smtp_server :=
  {| on_connect := None; on_starttls := None; on_login := None;
     on_send_message := None; on_quit := None |}.

Definition refusing_login : smtp_server :=
  {| on_connect := None; on_starttls := None;
     on_login := Some (TransportError "535 authentication failed");
     on_send_message := None; on_quit := None |}.

(** The first call of the SMTP session that fails, if any. *)
Definition transport_failure (server : smtp_server) : option exn :=
  match on_connect server with
  | Some e => Some e
  | None =>
      match on_starttls server with
      | Some e => Some e
      | None =>
          match on_login server with
          | Some e => Some e
          | None =>
              match on_send_message server with
              | Some e => Some e
              | None => on_quit server
              end
          end
      end
  end.

(** The calls to the mail server in a trace. *)
Definition transport_events (tr : list event) : list event :=
  filter (fun ev => is_transport ev = true) tr.

(** ** Payload fields by use *)

(** The numeric fields that only [format_currency] or [format_percent]
    reads. *)
Definition null_tolerant : list string :=
  [ "purchasePrice"; "downPayment"; "closingCosts"; "otherIncomeMonthly";
    "rehabCosts"; "effectiveIncomeMonthly"; "loanAmount"; "totalCashNeeded";
    "noiMonthly"; "annualCashFlow"; "interestRate"; "annualDebtService" ].

(** The numeric fields that are also multiplied, subtracted, compared or
    formatted in place. *)
Definition null_rejected : list string :=
  [ "sqft"; "grossRentMonthly"; "vacancyRate"; "totalExpensesMonthly";
    "monthlyPayment"; "monthlyCashFlow"; "capRate"; "cashOnCash"; "dscr";
    "grm"; "onePercentRule"; "downPaymentPercent" ].

(** Every key [generate_pdf] reads. *)
Definition report_keys : list string :=
  [ "userName";
    "sqft"; "propertyAddress"; "propertyCity"; "propertyState"; "propertyZip";
    "propertyType"; "numUnits"; "bedrooms"; "bathrooms"; "yearBuilt"; "lotSize";
    "purchasePrice"; "grossRentMonthly"; "downPayment"; "vacancyRate";
    "closingCosts"; "otherIncomeMonthly"; "rehabCosts"; "effectiveIncomeMonthly";
    "loanAmount"; "totalExpensesMonthly"; "totalCashNeeded"; "noiMonthly";
    "monthlyPayment";
    "monthlyCashFlow"; "annualCashFlow";
    "capRate"; "cashOnCash"; "dscr"; "grm"; "onePercentRule";
    "rule1Pass"; "rule2Pass"; "rule50Pass"; "rule70Pass"; "cashFlowPositivePass";
    "verdict";
    "interestRate"; "downPaymentPercent"; "annualDebtService"; "loanTermYears" ].

(** Two payloads bind the same value, or both nothing, to each key of a
    list. *)
Definition agree_on (keys : list string) (d1 d2 : gmap string pyval) : Prop :=
  forall key, In key keys -> d1 !! key = d2 !! key.

(** ** Exact comparison *)

(** [a >= b] and [a <= b] on exact values. *)
Definition xge (a b : xreal) : bool :=
  match xcompare a b with
  | Some Gt | Some Eq => true
  | _ => false
  end.

Definition xle (a b : xreal) : bool :=
  match xcompare a b with
  | Some Lt | Some Eq => true
  | _ => false
  end.

(** ** Well-formed tables *)

(** A style command addresses cells of the table: with negative coordinates
    counted from the end, both corners lie inside the table and the start is
    not after the stop. *)
Definition in_bounds (t : table) (c : style_cmd) : bool :=
  let sc := from_end (ncols t) (fst (start c)) in
  let ec := from_end (ncols t) (fst (stop c)) in
  let sr := from_end (nrows t) (snd (start c)) in
  let er := from_end (nrows t) (snd (stop c)) in
  (0 <=? sc) && (sc <=? ec) && (ec <? ncols t) &&
  (0 <=? sr) && (sr <=? er) && (er <? nrows t).

(** Every row has one cell per column width, and every style command is in
    bounds. *)
Definition well_formed (t : table) : bool :=
  forallb (fun r => (length r =? length (colWidths t))%nat) (rows t) &&
  forallb (in_bounds t) (commands t).

(** ** Responses and sessions *)

(** The header that names the downloaded file. *)
Definition content_disposition (stem : string) : string * string :=
  ("Content-Disposition",
   "attachment; filename=" ++ dquote ++ ("Investment_Analysis_" ++ stem ++ ".pdf") ++ dquote).

(** A renderer that succeeds with an empty buffer. *)
Definition blank_page (job : pdf_job) : result bytes := Ok [].

(** The message [send_email] composes for an address [s]. *)
Definition composed_message (cfg : email_config) (data : gmap string pyval)
    (pdf_buffer : bytes) (s : string) : message :=
  {| msg_From := EMAIL_FROM cfg;
     msg_To := dict_get data "userEmail" VNone;
     msg_Subject := [Chars "Your Investment Property Analysis - "; Chars s];
     msg_body := email_body (dict_get data "userName" VNone) (VStr s);
     attachment := pdf_buffer;
     attachment_filename := "Investment_Analysis_" ++ safe_address_email s ++ ".pdf" |}.

(** The calls of a complete session, in order. *)
Definition session (cfg : email_config) (msg : message) : list event :=
  [ SMTP (EMAIL_HOST cfg) (EMAIL_PORT cfg); starttls;
    login (EMAIL_USER cfg) (EMAIL_PASSWORD cfg); send_message msg; quit ].

(** How many of them are made: up to and including the first that fails. *)
Definition calls_made (server : smtp_server) : nat :=
  match on_connect server with
  | Some _ => 1
  | None =>
      match on_starttls server with
      | Some _ => 2
      | None =>
          match on_login server with
          | Some _ => 3
          | None =>
              match on_send_message server with
              | Some _ => 4
              | None => 5
              end
          end
      end
  end.

(** ** Exact values *)

(** [m * 2^e] as a rational. *)
Definition dyadic (m e : Z) : Q :=
  if 0 <=? e then inject_Z (m * 2 ^ e) else Qmake m (Z.to_pos (2 ^ (- e))).

(** What a Python number denotes: a rational, an infinity or no number. *)
Inductive exact : Type :=
| Rational (q : Q)
| PlusInfinity
| MinusInfinity
| NotANumber.

Definition exact_value (v : pynum) : exact :=
  match v with
  | NInt z => Rational (inject_Z z)
  | NFloat S754_nan => NotANumber
  | NFloat (S754_infinity s) => if s then MinusInfinity else PlusInfinity
  | NFloat (S754_zero _) => Rational 0
  | NFloat (S754_finite s m e) => Rational (dyadic (if s then Z.neg m else Z.pos m) e)
  end.

(** [v >= t] and [v <= t] on exact values; a NaN is neither. *)
Definition at_least (v : pynum) (t : Q) : bool :=
  match exact_value v with
  | Rational q => Qle_bool t q
  | PlusInfinity => true
  | _ => false
  end.

Definition at_most (v : pynum) (t : Q) : bool :=
  match exact_value v with
  | Rational q => Qle_bool q t
  | MinusInfinity => true
  | _ => false
  end.

(** The binary64 numbers nearest to 0.08, 0.06, 0.10 and 0.01: a 53-bit
    numerator over a power of two. *)
Definition double_0_08 : Q := 5764607523034235 # 72057594037927936.
Definition double_0_06 : Q := 8646911284551352 # 144115188075855872.
Definition double_0_10 : Q := 7205759403792794 # 72057594037927936.
Definition double_0_01 : Q := 5764607523034235 # 576460752303423488.

(** ** Numbers that can be shown *)

(** [float(z)] is defined. *)
Definition float_accepts (z : Z) : bool :=
  match int_to_float z with
  | Ok _ => true
  | Raise _ => false
  end.

(** A number that [format_percent] shows: the product with 100 must convert
    to [float]. *)
Definition percent_shown (v : pyval) : bool :=
  match v with
  | VBool _ | VFloat _ => true
  | VInt z => float_accepts (z * 100)
  | _ => false
  end.

(** A number that ['.2f'] shows. *)
Definition ratio_shown (v : pyval) : bool :=
  match v with
  | VBool _ | VFloat _ => true
  | VInt z => float_accepts z
  | _ => false
  end.

(** A payload with labels of the middle and bottom tiers, and one on the
    thresholds. *)
Definition mixed_payload : gmap string pyval :=
  list_to_map
    [ ("capRate", VFloat (decimal_literal 7 2));
      ("cashOnCash", VFloat (decimal_literal 5 2));
      ("dscr", VFloat (decimal_literal 11 1));
      ("grm", VInt 13);
      ("onePercentRule", VFloat (decimal_literal 5 3)) ].

Definition threshold_payload : gmap string pyval :=
  list_to_map
    [ ("capRate", VFloat (decimal_literal 8 2));
      ("cashOnCash", VFloat (decimal_literal 6 2));
      ("dscr", VInt 1);
      ("grm", VInt 12);
      ("onePercentRule", VFloat (decimal_literal 1 2)) ].

(** ** Markup *)

(** A parser that takes every text; it stands in where the text of the
    paragraph is well formed. *)
Definition any_text (t : text) : bool := true.

(** The line of the header when [userName] is missing. *)
Definition default_prepared_for (today : string) : text :=
  [Chars "Prepared for: "; Chars "N/A"; Chars "<br/>Date: "; Chars today].

(** * Properties *)

(** ** Numbers *)

(** The literals of the source, as binary64 numbers. *)
Lemma literal_values :
  lit_0_08 = S754_finite false 5764607523034235 (-56) /\
  lit_0_06 = S754_finite false 8646911284551352 (-57) /\
  lit_0_10 = S754_finite false 7205759403792794 (-56) /\
  lit_0_01 = S754_finite false 5764607523034235 (-59) /\
  lit_1_25 = S754_finite false 5629499534213120 (-52) /\
  lit_1_0 = S754_finite false 4503599627370496 (-52).
Proof. repeat apply conj; vm_compute; reflexivity. Qed.

(** Each literal is within half a unit in the last place of its decimal. *)
Lemma literal_errors :
  Z.abs (5764607523034235 * 100 - 8 * 2 ^ 56) * 2 <= 100 /\
  Z.abs (8646911284551352 * 100 - 6 * 2 ^ 57) * 2 <= 100 /\
  Z.abs (7205759403792794 * 100 - 10 * 2 ^ 56) * 2 <= 100 /\
  Z.abs (5764607523034235 * 100 - 1 * 2 ^ 59) * 2 <= 100 /\
  5629499534213120 * 100 = 125 * 2 ^ 52 /\
  4503599627370496 = 2 ^ 52.
Proof. repeat apply conj; vm_compute; try reflexivity; discriminate. Qed.

Lemma num_ge_int a b : num_ge (NInt a) (NInt b) = (b <=? a).
Proof.
  unfold num_ge, num_compare, xcompare. simpl.
  rewrite !Z.mul_1_r.
  destruct (Z.compare_spec a b), (Z.leb_spec b a); try reflexivity; lia.
Qed.

Lemma num_le_int a b : num_le (NInt a) (NInt b) = (a <=? b).
Proof.
  unfold num_le, num_compare, xcompare. simpl.
  rewrite !Z.mul_1_r.
  destruct (Z.compare_spec a b), (Z.leb_spec a b); try reflexivity; lia.
Qed.

Lemma num_ge_nan b : num_ge (NFloat S754_nan) b = false.
Proof. reflexivity. Qed.

(** ** The classification helper *)

Lemma tints_distinct :
  SUCCESS <> WARNING /\ SUCCESS <> DANGER /\ WARNING <> DANGER /\
  CYAN <> SUCCESS /\ CYAN <> WARNING /\ CYAN <> DANGER /\
  WHITE <> SUCCESS /\ WHITE <> WARNING /\ WHITE <> DANGER.
Proof. repeat apply conj; discriminate. Qed.

Lemma get_status_color_cases value good warn hib :
  get_status_color value good warn hib =
    if clears hib value good then SUCCESS
    else if warn_cleared hib value warn then WARNING
    else DANGER.
Proof. destruct hib; reflexivity. Qed.

Lemma warn_cleared_true hib value warn :
  warn_cleared hib value warn = true <->
  exists w, warn = Some w /\ num_truthy w = true /\ clears hib value w = true.
Proof.
  unfold warn_cleared. split.
  - destruct warn as [w|]; [|discriminate].
    intros H. apply andb_true_iff in H. exists w. tauto.
  - intros (w & -> & Hw & Hc). now rewrite Hw, Hc.
Qed.

(** C6 (amended): the helper returns the top tier iff the value clears the
    good threshold in the favourable direction, the middle tier iff it
    misses the good threshold and a nonzero warn threshold is supplied that
    the value clears, and the bottom tier otherwise; without a warn threshold
    only the top and bottom tiers are reachable.  The examples of the
    specification evaluate as stated. *)
Theorem get_status_color_tiers :
  (forall value good warn hib,
     (get_status_color value good warn hib = SUCCESS <->
        clears hib value good = true) /\
     (get_status_color value good warn hib = WARNING <->
        clears hib value good = false /\
        exists w, warn = Some w /\ num_truthy w = true /\ clears hib value w = true) /\
     (get_status_color value good warn hib = DANGER <->
        clears hib value good = false /\ warn_cleared hib value warn = false)) /\
  (forall value good hib,
     get_status_color value good None hib =
       if clears hib value good then SUCCESS else DANGER) /\
  get_status_color (NFloat (decimal_literal 8 2)) (NFloat (decimal_literal 8 2))
    (Some (NFloat (decimal_literal 6 2))) true = SUCCESS /\
  get_status_color (NFloat (decimal_literal 7 2)) (NFloat (decimal_literal 8 2))
    (Some (NFloat (decimal_literal 6 2))) true = WARNING /\
  get_status_color (NFloat (decimal_literal 5 2)) (NFloat (decimal_literal 8 2))
    (Some (NFloat (decimal_literal 6 2))) true = DANGER /\
  get_status_color (NInt 12) (NInt 12) None false = SUCCESS /\
  get_status_color (NInt 13) (NInt 12) None false = DANGER.
Proof.
  split; [|split; [|repeat apply conj; vm_compute; reflexivity]].
  - intros value good warn hib. rewrite get_status_color_cases.
    rewrite <- warn_cleared_true.
    destruct (clears hib value good), (warn_cleared hib value warn);
      repeat apply conj; intros; try discriminate; try reflexivity;
      try (destruct H; discriminate); try (split; reflexivity).
  - intros value good hib. now rewrite get_status_color_cases.
Qed.

(** C6, as stated, fails: a warn threshold of zero is supplied and cleared,
    the good threshold is missed, and the result is not the middle tier. *)
Lemma get_status_color_supplied_zero_warn :
  ~ (forall value good w hib,
       clears hib value good = false ->
       clears hib value w = true ->
       get_status_color value good (Some w) hib = WARNING).
Proof.
  intros H.
  specialize (H (NFloat (decimal_literal 5 1)) (NInt 1) (NInt 0) true eq_refl eq_refl).
  vm_compute in H. discriminate.
Qed.

(** C10: a warn threshold equal to zero (the integer, either float zero or
    [False]) behaves as an absent one, so the middle tier is unreachable;
    [get_status_color(0.5, 1, 0, higher_is_better=True)] is the bottom tier;
    a middle-tier result requires a nonzero warn threshold. *)
Theorem zero_warn_threshold_is_absent :
  (forall value good hib,
     get_status_color value good (Some (NInt 0)) hib =
     get_status_color value good None hib) /\
  (forall value good hib s,
     get_status_color value good (Some (NFloat (S754_zero s))) hib =
     get_status_color value good None hib) /\
  (forall value good hib,
     get_status_color value good (Some (NInt (Z.b2z false))) hib =
     get_status_color value good None hib) /\
  (forall value good hib,
     get_status_color value good (Some (NInt 0)) hib <> WARNING) /\
  get_status_color (NFloat (decimal_literal 5 1)) (NInt 1) (Some (NInt 0)) true = DANGER /\
  num_ge (NFloat (decimal_literal 5 1)) (NInt 0) = true /\
  (forall value good warn hib,
     get_status_color value good warn hib = WARNING ->
     exists w, warn = Some w /\ num_truthy w = true).
Proof.
  repeat apply conj.
  - intros. destruct hib; reflexivity.
  - intros. destruct hib; reflexivity.
  - intros. destruct hib; reflexivity.
  - intros value good hib. rewrite get_status_color_cases. simpl.
    destruct (clears hib value good); discriminate.
  - vm_compute; reflexivity.
  - vm_compute; reflexivity.
  - intros value good warn hib H.
    rewrite get_status_color_cases in H.
    destruct (clears hib value good); [discriminate|].
    destruct (warn_cleared hib value warn) eqn:E; [|discriminate].
    apply warn_cleared_true in E as (w & -> & Ht & _). eauto.
Qed.

Lemma zero_warn_threshold_is_absent_witness :
  get_status_color (NFloat (decimal_literal 7 2)) (NFloat (decimal_literal 8 2))
    (Some (NFloat (decimal_literal 6 2))) true = WARNING /\
  exists w, Some (NFloat (decimal_literal 6 2)) = Some w /\ num_truthy w = true.
Proof.
  split; [vm_compute; reflexivity|].
  apply (proj2 (proj2 (proj2 (proj2 (proj2 (proj2 zero_warn_threshold_is_absent)))))
           (NFloat (decimal_literal 7 2)) (NFloat (decimal_literal 8 2)) _ true).
  vm_compute; reflexivity.
Defined.

(** ** Quick rules check *)

Lemma rule_passes_bool data key b :
  data !! key = Some (VBool b) -> rule_passes data key = b.
Proof. unfold rule_passes, dict_get. now intros ->. Qed.

Lemma rule_passes_missing data key :
  data !! key = None -> rule_passes data key = false.
Proof. unfold rule_passes, dict_get. now intros ->. Qed.

(** C2: in the Quick Rules Check table a true rule shows "PASS" ("YES" for
    the cash-flow row) in the success colour; a false rule shows "REVIEW" in
    the warning colour for the 50% rule and "FAIL" ("NO" for the cash-flow
    row) in the danger colour for every other rule; a rule bound to [True]
    or [False] passes accordingly and a missing rule behaves as [False]. *)
Theorem quick_rules_check (data : gmap string pyval) :
  let t := rules_table data in
  result_cell t 1 =
    (if rule_passes data "rule1Pass"
     then (Some (lit "PASS"), Some SUCCESS) else (Some (lit "FAIL"), Some DANGER)) /\
  result_cell t 2 =
    (if rule_passes data "rule2Pass"
     then (Some (lit "PASS"), Some SUCCESS) else (Some (lit "FAIL"), Some DANGER)) /\
  result_cell t 3 =
    (if rule_passes data "rule50Pass"
     then (Some (lit "PASS"), Some SUCCESS) else (Some (lit "REVIEW"), Some WARNING)) /\
  result_cell t 4 =
    (if rule_passes data "rule70Pass"
     then (Some (lit "PASS"), Some SUCCESS) else (Some (lit "FAIL"), Some DANGER)) /\
  result_cell t 5 =
    (if rule_passes data "cashFlowPositivePass"
     then (Some (lit "YES"), Some SUCCESS) else (Some (lit "NO"), Some DANGER)) /\
  (forall key b, data !! key = Some (VBool b) -> rule_passes data key = b) /\
  (forall key, data !! key = None -> rule_passes data key = false).
Proof.
  cbv zeta. unfold rules_table, rules_data, result_cell.
  fold (rule_passes data "rule1Pass") (rule_passes data "rule2Pass")
       (rule_passes data "rule50Pass") (rule_passes data "rule70Pass")
       (rule_passes data "cashFlowPositivePass").
  repeat apply conj;
    try (destruct (rule_passes data "rule1Pass"), (rule_passes data "rule2Pass"),
           (rule_passes data "rule50Pass"), (rule_passes data "rule70Pass"),
           (rule_passes data "cashFlowPositivePass"); vm_compute; reflexivity).
  - intros key b. apply rule_passes_bool.
  - intros key. apply rule_passes_missing.
Qed.

Lemma quick_rules_check_witness :
  example_payload !! "rule2Pass" = Some (VBool false) /\
  example_payload !! "bogus" = None /\
  rule_passes example_payload "rule2Pass" = false /\
  rule_passes example_payload "bogus" = false /\
  result_cell (rules_table example_payload) 2 = (Some (lit "FAIL"), Some DANGER) /\
  result_cell (rules_table example_payload) 3 = (Some (lit "PASS"), Some SUCCESS).
Proof.
  pose proof (quick_rules_check example_payload) as H. cbv zeta in H.
  destruct H as (_ & H2 & H3 & _ & _ & Hb & Hm).
  assert (E2 : example_payload !! "rule2Pass" = Some (VBool false))
    by (vm_compute; reflexivity).
  assert (Em : example_payload !! "bogus" = None) by (vm_compute; reflexivity).
  repeat apply conj.
  - exact E2.
  - exact Em.
  - exact (Hb _ _ E2).
  - exact (Hm _ Em).
  - rewrite H2, (Hb _ _ E2). reflexivity.
  - rewrite H3. vm_compute. reflexivity.
Defined.

(** ** Deal verdict *)

(** C3: the tint of the Deal Verdict cell is a function of the verdict alone
    with four outcomes: "STRONG BUY" gives the success colour, "CONSIDER"
    cyan, "REVIEW" the warning colour and every other string the danger
    colour; a missing verdict is "REVIEW", hence the warning colour. *)
Theorem verdict_tint (data : gmap string pyval) :
  let verdict := dict_get data "verdict" (VStr "REVIEW") in
  let t := verdict_table data in
  cell_at t 1 0 = Some (Obj verdict) /\
  text_color t 1 0 = Some (verdict_color verdict) /\
  verdict_color (VStr "STRONG BUY") = SUCCESS /\
  verdict_color (VStr "CONSIDER") = CYAN /\
  verdict_color (VStr "REVIEW") = WARNING /\
  (forall s, s <> "STRONG BUY" -> s <> "CONSIDER" -> s <> "REVIEW" ->
     verdict_color (VStr s) = DANGER) /\
  (forall v, In (verdict_color v) [SUCCESS; CYAN; WARNING; DANGER]) /\
  (data !! "verdict" = None ->
     cell_at t 1 0 = Some (Obj (VStr "REVIEW")) /\ text_color t 1 0 = Some WARNING).
Proof.
  cbv zeta.
  assert (Hcolor : text_color (verdict_table data) 1 0 =
                   Some (verdict_color (dict_get data "verdict" (VStr "REVIEW")))).
  { unfold verdict_table.
    generalize (verdict_color (dict_get data "verdict" (VStr "REVIEW"))) as c.
    intros c. vm_compute. reflexivity. }
  repeat apply conj.
  - reflexivity.
  - exact Hcolor.
  - reflexivity.
  - reflexivity.
  - reflexivity.
  - intros s H1 H2 H3. unfold verdict_color, py_eq_str.
    apply String.eqb_neq in H1, H2, H3. now rewrite H1, H2, H3.
  - intros v. unfold verdict_color.
    destruct (py_eq_str v "STRONG BUY"); [simpl; auto|].
    destruct (py_eq_str v "CONSIDER"); [simpl; auto|].
    destruct (py_eq_str v "REVIEW"); simpl; auto.
  - intros E.
    assert (D : dict_get data "verdict" (VStr "REVIEW") = VStr "REVIEW")
      by (unfold dict_get; now rewrite E).
    rewrite Hcolor, D. split; [|reflexivity].
    change (cell_at (verdict_table data) 1 0)
      with (Some (Obj (dict_get data "verdict" (VStr "REVIEW")))).
    now rewrite D.
Qed.

Lemma verdict_tint_witness :
  ("HOLD" <> "STRONG BUY" /\ "HOLD" <> "CONSIDER" /\ "HOLD" <> "REVIEW") /\
  verdict_color (VStr "HOLD") = DANGER /\
  (∅ : gmap string pyval) !! "verdict" = None /\
  text_color (verdict_table ∅) 1 0 = Some WARNING.
Proof.
  pose proof (verdict_tint ∅) as H. cbv zeta in H.
  destruct H as (_ & _ & _ & _ & _ & Hother & _ & Hmissing).
  assert (N : "HOLD" <> "STRONG BUY" /\ "HOLD" <> "CONSIDER" /\ "HOLD" <> "REVIEW")
    by (repeat apply conj; discriminate).
  repeat apply conj; try apply N.
  - apply Hother; apply N.
  - reflexivity.
  - apply Hmissing. reflexivity.
Defined.

(** ** Cash-flow highlight *)

(** Whatever the payload, the cash-flow table carries the same style: the
    colour computed from the sign of the monthly figure is not part of it,
    and both value cells are white. *)
Lemma cashflow_table_style data t :
  cashflow_table data = Ok t ->
  commands t = cashflow_style /\
  text_color t 1 0 = Some WHITE /\ text_color t 1 1 = Some WHITE.
Proof.
  unfold cashflow_table.
  destruct (cf_color _) as [c|e]; [|discriminate]. simpl.
  destruct (money (dict_get data "monthlyCashFlow" (VInt 0))) as [m|e]; [|discriminate].
  simpl.
  destruct (money (dict_get data "annualCashFlow" (VInt 0))) as [a|e]; [|discriminate].
  simpl. intros [= <-]. repeat apply conj; reflexivity.
Qed.

(** C4 (the code departs from the claim): with a positive monthly cash flow
    [cf_color] is the success colour and with a negative one the danger
    colour, yet in both reports the two cash-flow cells are white and no
    command of the table style mentions either colour. *)
Theorem cashflow_tint_not_applied :
  let gain : gmap string pyval :=
    list_to_map [("monthlyCashFlow", VInt 250); ("annualCashFlow", VInt 3000)] in
  let loss : gmap string pyval :=
    list_to_map [("monthlyCashFlow", VInt (-250)); ("annualCashFlow", VInt (-3000))] in
  cf_color (dict_get gain "monthlyCashFlow" (VInt 0)) = Ok SUCCESS /\
  cf_color (dict_get loss "monthlyCashFlow" (VInt 0)) = Ok DANGER /\
  (exists t, cashflow_table gain = Ok t /\
     cell_at t 1 0 = Some (lit "$250") /\ cell_at t 1 1 = Some (lit "$3,000") /\
     text_color t 1 0 = Some WHITE /\ text_color t 1 1 = Some WHITE /\
     commands t = cashflow_style) /\
  (exists t, cashflow_table loss = Ok t /\
     text_color t 1 0 = Some WHITE /\ text_color t 1 1 = Some WHITE /\
     commands t = cashflow_style) /\
  ~ In (TEXTCOLOR SUCCESS) (map attr cashflow_style) /\
  ~ In (TEXTCOLOR DANGER) (map attr cashflow_style).
Proof.
  cbv zeta. repeat apply conj.
  - vm_compute; reflexivity.
  - vm_compute; reflexivity.
  - eexists. split; [vm_compute; reflexivity|]. repeat apply conj; reflexivity.
  - eexists. split; [vm_compute; reflexivity|]. repeat apply conj; reflexivity.
  - simpl. intros H. repeat (destruct H as [H|H]; [discriminate H|]). exact H.
  - simpl. intros H. repeat (destruct H as [H|H]; [discriminate H|]). exact H.
Qed.

(** ** Attachment file names *)

Lemma contains_append c s1 s2 :
  contains c (s1 ++ s2) = contains c s1 || contains c s2.
Proof.
  induction s1 as [|a s1 IH]; simpl; [reflexivity|].
  now rewrite IH, orb_assoc.
Qed.

(** After [replace(old, new)] a character that is not in [new] occurs
    only if it occurred before and is not [old]. *)
Lemma contains_replace c old new s :
  contains c new = false ->
  contains c (replace old new s) = negb (Ascii.eqb c old) && contains c s.
Proof.
  intros Hnew. induction s as [|a s IH]; simpl.
  - now rewrite andb_false_r.
  - destruct (Ascii.eqb_spec a old) as [->|Hne].
    + rewrite contains_append, Hnew, IH. simpl.
      rewrite (Ascii.eqb_sym old c).
      destruct (Ascii.eqb c old); reflexivity.
    + simpl. rewrite IH.
      destruct (Ascii.eqb_spec a c) as [->|Hac]; simpl.
      * destruct (Ascii.eqb_spec c old) as [->|]; [contradiction|reflexivity].
      * reflexivity.
Qed.

Lemma contains_slice_to c n s :
  contains c s = false -> contains c (slice_to n s) = false.
Proof.
  revert s. induction n as [|n IH]; intros [|a s]; simpl; try reflexivity.
  intros H. apply orb_false_iff in H as [-> H]. simpl. now apply IH.
Qed.

Lemma length_slice_to n s : (String.length (slice_to n s) <= n)%nat.
Proof.
  revert s. induction n as [|n IH]; intros [|a s]; simpl; try lia.
  specialize (IH s). lia.
Qed.

(** The download route: the stem of the file name has no space, comma or
    period and at most 30 characters, for every address. *)
Lemma safe_address_download_clean (property_address : string) :
  contains " " (safe_address_download property_address) = false /\
  contains "," (safe_address_download property_address) = false /\
  contains "." (safe_address_download property_address) = false /\
  (String.length (safe_address_download property_address) <= 30)%nat.
Proof.
  unfold safe_address_download. repeat apply conj.
  - apply contains_slice_to.
    rewrite !contains_replace by reflexivity. reflexivity.
  - apply contains_slice_to.
    rewrite !contains_replace by reflexivity. reflexivity.
  - apply contains_slice_to.
    rewrite !contains_replace by reflexivity. reflexivity.
  - apply length_slice_to.
Qed.

(** The mail route: the stem has no space or comma and at most 30
    characters; periods are kept. *)
Lemma safe_address_email_clean (property_address : string) :
  contains " " (safe_address_email property_address) = false /\
  contains "," (safe_address_email property_address) = false /\
  (String.length (safe_address_email property_address) <= 30)%nat.
Proof.
  unfold safe_address_email. repeat apply conj.
  - apply contains_slice_to.
    rewrite !contains_replace by reflexivity. reflexivity.
  - apply contains_slice_to.
    rewrite !contains_replace by reflexivity. reflexivity.
  - apply length_slice_to.
Qed.

(** A PDF response of the download route names the file after the cleaned
    address. *)
Lemma generate_report_filename markup_ok render today data tr body headers :
  generate_report markup_ok render today data = (tr, Ok (PdfResponse body headers)) ->
  exists s,
    dict_get data "propertyAddress" (VStr "Investment_Property") = VStr s /\
    headers =
      [ ("Content-Type", "application/pdf");
        ("Content-Disposition",
         "attachment; filename=" ++ dquote ++
         ("Investment_Analysis_" ++ safe_address_download s ++ ".pdf") ++ dquote) ].
Proof.
  unfold generate_report.
  destruct (generate_pdf markup_ok today data) as [job|e]; simpl; [|discriminate].
  destruct (render job) as [buf|e]; simpl; [|discriminate].
  destruct (dict_get data "propertyAddress" (VStr "Investment_Property"));
    simpl; try discriminate.
  unfold set_header.
  change (has_line_break "application/pdf") with false. cbv iota. simpl.
  match goal with |- context [has_line_break ?v] => destruct (has_line_break v) end;
    simpl; [discriminate|].
  intros [= <- <- <-]. eexists. split; reflexivity.
Qed.

(** C8 (the code departs from the claim): for the address
    "123 Main St., Apt #4" the download route names the file after
    "123_Main_St_Apt_#4", while [send_email] keeps the period and attaches
    the report as "Investment_Analysis_123_Main_St._Apt_#4.pdf". *)
Theorem email_attachment_keeps_period :
  let data : gmap string pyval :=
    list_to_map [("propertyAddress", VStr "123 Main St., Apt #4");
                 ("userEmail", VStr "buyer@example.com")] in
  safe_address_download "123 Main St., Apt #4" = "123_Main_St_Apt_#4" /\
  safe_address_email "123 Main St., Apt #4" = "123_Main_St._Apt_#4" /\
  contains "." (safe_address_email "123 Main St., Apt #4") = true /\
  exists msg,
    In (send_message msg) (fst (send_email example_config accepting_server data [])) /\
    attachment_filename msg = "Investment_Analysis_123_Main_St._Apt_#4.pdf" /\
    snd (send_email example_config accepting_server data []) = Ok true.
Proof.
  cbv zeta. repeat apply conj; try reflexivity.
  eexists. repeat apply conj.
  - vm_compute. do 3 right. left. reflexivity.
  - reflexivity.
  - vm_compute. reflexivity.
Qed.

(** ** Mail hand-off *)

Lemma configured_false cfg :
  configured cfg = false <-> EMAIL_USER cfg = "" \/ EMAIL_PASSWORD cfg = "".
Proof.
  unfold configured.
  destruct (String.eqb_spec (EMAIL_USER cfg) ""),
           (String.eqb_spec (EMAIL_PASSWORD cfg) ""); simpl;
    split; intros H; try reflexivity; try discriminate; tauto.
Qed.

(** C9: without a mail user or password [send_email] returns [True] and
    makes no call to the mail server; with both, a failing call of the SMTP
    session makes [send_email] raise that same exception, and [send_email]
    returns only when no call failed. *)
Theorem send_email_outcome cfg server data pdf_buffer :
  (EMAIL_USER cfg = "" \/ EMAIL_PASSWORD cfg = "" ->
     snd (send_email cfg server data pdf_buffer) = Ok true /\
     transport_events (fst (send_email cfg server data pdf_buffer)) = []) /\
  (EMAIL_USER cfg <> "" -> EMAIL_PASSWORD cfg <> "" ->
     forall s e,
       dict_get data "propertyAddress" (VStr "Investment Property") = VStr s ->
       transport_failure server = Some e ->
       snd (send_email cfg server data pdf_buffer) = Raise e) /\
  (EMAIL_USER cfg <> "" -> EMAIL_PASSWORD cfg <> "" ->
     forall b,
       snd (send_email cfg server data pdf_buffer) = Ok b ->
       transport_failure server = None).
Proof.
  repeat apply conj.
  - intros H. apply configured_false in H. unfold send_email. rewrite H.
    split; reflexivity.
  - intros Hu Hp s e Hs He.
    assert (C : configured cfg = true).
    { destruct (configured cfg) eqn:E; [reflexivity|].
      apply configured_false in E. tauto. }
    unfold send_email. rewrite C, Hs. unfold transport_failure in He.
    destruct server as [[c|] [t|] [l|] [m|] [q|]]; simpl in *;
      try discriminate; injection He as <-; reflexivity.
  - intros Hu Hp b.
    assert (C : configured cfg = true).
    { destruct (configured cfg) eqn:E; [reflexivity|].
      apply configured_false in E. tauto. }
    unfold send_email. rewrite C. unfold transport_failure.
    destruct (dict_get data "propertyAddress" (VStr "Investment Property"));
      simpl; try discriminate.
    destruct server as [[c|] [t|] [l|] [m|] [q|]]; simpl;
      try discriminate; reflexivity.
Qed.

Lemma send_email_outcome_witness :
  (EMAIL_USER unconfigured = "" \/ EMAIL_PASSWORD unconfigured = "") /\
  snd (send_email unconfigured refusing_login example_payload []) = Ok true /\
  transport_events (fst (send_email unconfigured refusing_login example_payload [])) = [] /\
  EMAIL_USER example_config <> "" /\ EMAIL_PASSWORD example_config <> "" /\
  transport_failure refusing_login = Some (TransportError "535 authentication failed") /\
  snd (send_email example_config refusing_login example_payload []) =
    Raise (TransportError "535 authentication failed") /\
  snd (send_email example_config accepting_server example_payload []) = Ok true /\
  transport_failure accepting_server = None.
Proof.
  assert (U : EMAIL_USER unconfigured = "" \/ EMAIL_PASSWORD unconfigured = "")
    by (left; reflexivity).
  assert (Nu : EMAIL_USER example_config <> "") by discriminate.
  assert (Np : EMAIL_PASSWORD example_config <> "") by discriminate.
  assert (Ok1 : snd (send_email example_config accepting_server example_payload []) = Ok true)
    by (vm_compute; reflexivity).
  repeat apply conj.
  - exact U.
  - exact (proj1 (proj1 (send_email_outcome unconfigured refusing_login example_payload []) U)).
  - exact (proj2 (proj1 (send_email_outcome unconfigured refusing_login example_payload []) U)).
  - exact Nu.
  - exact Np.
  - reflexivity.
  - exact (proj1 (proj2 (send_email_outcome example_config refusing_login example_payload []))
             Nu Np "Investment Property" _ eq_refl eq_refl).
  - exact Ok1.
  - exact (proj2 (proj2 (send_email_outcome example_config accepting_server example_payload []))
             Nu Np true Ok1).
Defined.

(** ** Conversion of integers to binary64

    Magnitude of a mantissa, rounding and alignment as [SpecFloat] defines
    them, specialised to [prec = 53] and [emax = 1024]. *)

Lemma Zdigits2_log2 z : z <> 0 -> Zdigits2 z = Z.log2 (Z.abs z) + 1.
Proof.
  assert (P : forall p, Z.pos (digits2_pos p) = Z.log2 (Z.pos p) + 1).
  { assert (S : forall p, digits2_pos p = Pos.size p)
      by (induction p; simpl; congruence).
    intros [p|p|]; simpl; rewrite ?S; lia. }
  destruct z as [|p|p]; intros H; simpl; [congruence|apply P|apply P].
Qed.

Lemma Zdigits2_nonneg z : 0 <= Zdigits2 z.
Proof. destruct z; simpl; lia. Qed.

Lemma Zdigits2_bound z k : 0 <= k -> Z.abs z < 2 ^ k -> Zdigits2 z <= k.
Proof.
  intros Hk H. destruct (Z.eq_dec z 0) as [->|Hz]; [simpl; lia|].
  rewrite Zdigits2_log2 by assumption.
  assert (Z.log2 (Z.abs z) < k) by (apply Z.log2_lt_pow2; lia). lia.
Qed.

Lemma Zdigits2_succ z : Zdigits2 (z + 1) <= Zdigits2 z + 1.
Proof.
  destruct (Z.eq_dec z 0) as [->|Hz]; [simpl; lia|].
  destruct (Z.eq_dec (z + 1) 0) as [->|Hz1]; [pose proof (Zdigits2_nonneg z); simpl; lia|].
  rewrite !Zdigits2_log2 by assumption.
  assert (Z.log2 (Z.abs (z + 1)) <= Z.log2 (Z.succ (Z.abs z)))
    by (apply Z.log2_le_mono; lia).
  pose proof (Z.log2_succ_le (Z.abs z)). lia.
Qed.

Lemma shr_1_digits mrs :
  Zdigits2 (shr_m (shr_1 mrs)) = Z.max 0 (Zdigits2 (shr_m mrs) - 1).
Proof.
  destruct mrs as [[|[p|p|]|[p|p|]] r s]; simpl; lia.
Qed.

Lemma iter_shr_1_digits k : forall mrs,
  Zdigits2 (shr_m (SpecFloat.iter_pos shr_1 k mrs)) = Z.max 0 (Zdigits2 (shr_m mrs) - Z.pos k).
Proof.
  induction k as [k IH|k IH|]; intros mrs; simpl.
  - rewrite !IH, shr_1_digits. lia.
  - rewrite !IH. lia.
  - apply shr_1_digits.
Qed.

Lemma shr_m_of_loc m l : shr_m (shr_record_of_loc m l) = m.
Proof. destruct l as [|[]]; reflexivity. Qed.

Lemma shr_fexp_bounds m e l :
  let r := shr_fexp prec emax m e l in
  snd r = Z.max e (fexp prec emax (Zdigits2 m + e)) /\
  Zdigits2 (shr_m (fst r)) + snd r <= Z.max (snd r) (Zdigits2 m + e).
Proof.
  cbv zeta. unfold shr_fexp, shr.
  destruct (fexp prec emax (Zdigits2 m + e) - e) as [|n|n] eqn:E; simpl.
  - rewrite shr_m_of_loc. lia.
  - rewrite iter_shr_1_digits, shr_m_of_loc. lia.
  - rewrite shr_m_of_loc. lia.
Qed.

Lemma round_nearest_even_digits m l :
  Zdigits2 (round_nearest_even m l) <= Zdigits2 m + 1.
Proof.
  pose proof (Zdigits2_succ m).
  destruct l as [|[]]; simpl; try lia. destruct (Z.even m); lia.
Qed.

Lemma fexp_le e : e <= 1024 -> fexp prec emax e <= 971.
Proof. unfold fexp, emin, prec, emax. lia. Qed.

Lemma binary_round_aux_finite s m e l :
  Zdigits2 m + e <= 1023 -> e <= 971 ->
  forall s', binary_round_aux prec emax s m e l <> S754_infinity s'.
Proof.
  intros Hd He s'. unfold binary_round_aux.
  pose proof (shr_fexp_bounds m e l) as B1. cbv zeta in B1.
  destruct (shr_fexp prec emax m e l) as [mrs1 e1]. simpl in B1.
  destruct B1 as [E1 D1].
  set (m2 := round_nearest_even (shr_m mrs1) (loc_of_shr_record mrs1)).
  pose proof (shr_fexp_bounds m2 e1 loc_Exact) as B2. cbv zeta in B2.
  destruct (shr_fexp prec emax m2 e1 loc_Exact) as [mrs2 e2]. simpl in B2.
  destruct B2 as [E2 _].
  pose proof (round_nearest_even_digits (shr_m mrs1) (loc_of_shr_record mrs1)) as R.
  fold m2 in R.
  assert (F1 : fexp prec emax (Zdigits2 m + e) <= 971) by (apply fexp_le; lia).
  assert (F2 : fexp prec emax (Zdigits2 m2 + e1) <= 971) by (apply fexp_le; lia).
  assert (L : (e2 <=? emax - prec) = true) by (apply Z.leb_le; unfold emax, prec; lia).
  destruct (shr_m mrs2); [discriminate| rewrite L; discriminate | discriminate].
Qed.

Lemma iter_xO_spec p d :
  Z.pos (Pos.iter xO p d) = Z.pos p * 2 ^ Z.pos d /\
  Z.pos (digits2_pos (Pos.iter xO p d)) = Z.pos (digits2_pos p) + Z.pos d.
Proof.
  induction d as [|d [IH1 IH2]] using Pos.peano_ind.
  - simpl. lia.
  - rewrite Pos.iter_succ, Pos2Z.inj_succ, Z.pow_succ_r by lia.
    cbn [digits2_pos]. lia.
Qed.

(** Aligning an integer mantissa keeps its value and its magnitude. *)
Lemma shl_align_int p :
  let '(mz, ez) := shl_align p 0 (fexp prec emax (Z.pos (digits2_pos p) + 0)) in
  ez <= 0 /\ Z.pos mz = Z.pos p * 2 ^ (- ez) /\
  Zdigits2 (Z.pos mz) + ez = Z.pos (digits2_pos p) /\
  (Z.pos (digits2_pos p) <= 53 -> fexp prec emax (Zdigits2 (Z.pos mz) + ez) = ez).
Proof.
  unfold shl_align.
  destruct (fexp prec emax (Z.pos (digits2_pos p) + 0) - 0) as [|d|d] eqn:E.
  - simpl. repeat apply conj; lia.
  - simpl. repeat apply conj; try lia. intros H.
    unfold fexp, emin, prec, emax in *. lia.
  - destruct (iter_xO_spec p d) as [V D].
    assert (F : fexp prec emax (Z.pos (digits2_pos p) + 0) = Z.neg d) by lia.
    rewrite F. repeat apply conj.
    + lia.
    + rewrite V. reflexivity.
    + simpl. rewrite D. lia.
    + intros _. simpl Zdigits2. rewrite D.
      replace (Z.pos (digits2_pos p) + Z.pos d + Z.neg d) with (Z.pos (digits2_pos p) + 0) by lia.
      exact F.
Qed.

Lemma binary_round_int_finite s p :
  Z.pos p < 2 ^ 1023 -> forall s', binary_round prec emax s p 0 <> S754_infinity s'.
Proof.
  intros H. unfold binary_round.
  pose proof (shl_align_int p) as A.
  destruct (shl_align p 0 _) as [mz ez]. destruct A as (A1 & _ & A3 & _).
  assert (Zdigits2 (Z.pos p) <= 1023) by (apply Zdigits2_bound; lia).
  apply binary_round_aux_finite; simpl in *; lia.
Qed.

(** [float(z)] succeeds for every integer below [2^1023] in magnitude. *)
Lemma int_to_float_ok z :
  Z.abs z < 2 ^ 1023 -> exists f, int_to_float z = Ok f.
Proof.
  intros H. unfold int_to_float, binary_normalize.
  destruct z as [|p|p].
  - eexists; reflexivity.
  - pose proof (binary_round_int_finite false p ltac:(lia)) as N.
    destruct (binary_round prec emax false p 0) eqn:E; try (eexists; reflexivity).
    now contradiction (N s).
  - pose proof (binary_round_int_finite true p ltac:(lia)) as N.
    destruct (binary_round prec emax true p 0) eqn:E; try (eexists; reflexivity).
    now contradiction (N s).
Qed.

Lemma shr_fexp_exact m e :
  fexp prec emax (Zdigits2 m + e) = e ->
  shr_fexp prec emax m e loc_Exact = ({| shr_m := m; shr_r := false; shr_s := false |}, e).
Proof.
  intros H. unfold shr_fexp. rewrite H, Z.sub_diag. reflexivity.
Qed.

(** Below [2^53] the conversion is exact. *)
Lemma binary_round_int_exact s p :
  Z.pos p < 2 ^ 53 ->
  exists m e, binary_round prec emax s p 0 = S754_finite s m e /\
              e <= 0 /\ Z.pos m = Z.pos p * 2 ^ (- e).
Proof.
  intros H. unfold binary_round.
  pose proof (shl_align_int p) as A.
  destruct (shl_align p 0 _) as [mz ez]. destruct A as (A1 & A2 & A3 & A4).
  assert (D : Z.pos (digits2_pos p) <= 53)
    by (apply (Zdigits2_bound (Z.pos p)); lia).
  specialize (A4 D).
  unfold binary_round_aux. rewrite shr_fexp_exact by exact A4.
  simpl round_nearest_even. rewrite shr_fexp_exact by exact A4. simpl.
  assert (L : (ez <=? emax - prec) = true) by (apply Z.leb_le; unfold emax, prec; lia).
  rewrite L. eauto.
Qed.

(** ** [format_currency] *)

Lemma append_empty_r s : s ++ "" = s.
Proof.
  induction s as [|a s IH]; [reflexivity|].
  change (String a (s ++ "") = String a s). now rewrite IH.
Qed.

Lemma scaled_exact m e n :
  e <= 0 -> Z.pos m = n * 2 ^ (- e) -> scaled m e 0 = n.
Proof.
  intros He Hm. unfold scaled.
  destruct (0 <=? e) eqn:E.
  - apply Z.leb_le in E. assert (e = 0) as -> by lia.
    simpl in *. lia.
  - assert (P : 0 < 2 ^ (- e)) by (apply Z.pow_pos_nonneg; lia).
    unfold round_half_even. simpl Z.of_nat. rewrite Z.pow_0_r, Z.mul_1_r, Hm.
    rewrite Z.div_mul, Z.mod_mul by lia.
    destruct (Z.compare_spec (2 * 0) (2 ^ (- e))); lia.
Qed.

Lemma fixed_point_whole n : fixed_point n 0 true = group_thousands (decimal n).
Proof.
  unfold fixed_point. simpl Z.of_nat. rewrite Z.pow_0_r, Z.div_1_r.
  apply append_empty_r.
Qed.

(** Grouping only inserts commas. *)
Lemma commas_strip : forall n l,
  (length l <= n)%nat ->
  strip_commas l = l -> strip_commas (commas l) = l.
Proof.
  induction n as [|n IH]; intros l Hn Hl.
  - destruct l; [reflexivity|simpl in Hn; lia].
  - destruct l as [|a [|b [|c [|d l]]]]; try exact Hl.
    unfold strip_commas in *. cbn [commas]. simpl in Hl |- *.
    destruct (Ascii.eqb a ","); simpl in *.
    { exfalso. assert (L := List.filter_length_le (fun c => negb (Ascii.eqb c ",")) (b :: c :: d :: l)).
      simpl in L. rewrite Hl in L. simpl in L. lia. }
    destruct (Ascii.eqb b ","); simpl in *.
    { exfalso. injection Hl as Hl.
      assert (L := List.filter_length_le (fun c => negb (Ascii.eqb c ",")) (c :: d :: l)).
      simpl in L. rewrite Hl in L. simpl in L. lia. }
    destruct (Ascii.eqb c ","); simpl in *.
    { exfalso. injection Hl as Hl.
      assert (L := List.filter_length_le (fun c => negb (Ascii.eqb c ",")) (d :: l)).
      simpl in L. rewrite Hl in L. simpl in L. lia. }
    injection Hl as Hl. do 3 f_equal.
    apply (IH (d :: l)); [simpl in *; lia|exact Hl].
Qed.

Lemma replace_commas l :
  replace "," "" (string_of_list_ascii l) = string_of_list_ascii (strip_commas l).
Proof.
  induction l as [|a l IH]; [reflexivity|].
  unfold strip_commas in *. simpl.
  destruct (Ascii.eqb a ","); simpl; now rewrite IH.
Qed.

Lemma strip_commas_id s :
  contains "," s = false ->
  strip_commas (list_ascii_of_string s) = list_ascii_of_string s.
Proof.
  induction s as [|a s IH]; [reflexivity|].
  unfold strip_commas in *. simpl. intros H.
  apply orb_false_iff in H as [-> H]. simpl. now rewrite IH.
Qed.

(** Removing the commas from a grouped number gives its digits back. *)
Lemma group_thousands_digits s :
  contains "," s = false -> replace "," "" (group_thousands s) = s.
Proof.
  intros H. unfold group_thousands.
  rewrite replace_commas. unfold strip_commas at 1.
  rewrite List.filter_rev. fold (strip_commas (commas (rev (list_ascii_of_string s)))).
  rewrite (commas_strip (length (rev (list_ascii_of_string s)))); [| lia |].
  - now rewrite rev_involutive, string_of_list_ascii_of_string.
  - unfold strip_commas. rewrite List.filter_rev.
    fold (strip_commas (list_ascii_of_string s)). now rewrite strip_commas_id.
Qed.

(** An [int] below [2^53] in magnitude is printed digit for digit. *)
Lemma format_currency_int z :
  Z.abs z < 2 ^ 53 ->
  format_currency (VInt z) =
    Ok ("$" ++ sign_str (z <? 0) ++ group_thousands (decimal (Z.abs z))).
Proof.
  intros H. unfold format_currency, format_f, int_to_float, binary_normalize.
  destruct z as [|p|p].
  - reflexivity.
  - destruct (binary_round_int_exact false p ltac:(lia)) as (m & e & -> & He & Hm).
    simpl. now rewrite fixed_point_whole, (scaled_exact m e (Z.pos p)).
  - destruct (binary_round_int_exact true p ltac:(lia)) as (m & e & -> & He & Hm).
    simpl. now rewrite fixed_point_whole, (scaled_exact m e (Z.pos p)).
Qed.

(** C5 (amended): [format_currency] returns "$0" for [None]; an amount is
    rendered as "$", then a minus sign when it is negative, then the
    thousands-grouped integer without decimals, so
    [format_currency(1234567)] is "$1,234,567" and [format_currency(-500)]
    is "$-500": the minus sign follows the currency symbol. *)
Theorem format_currency_renders (z : Z) :
  Z.abs z < 2 ^ 53 ->
  format_currency VNone = Ok "$0" /\
  format_currency (VInt 1234567) = Ok "$1,234,567" /\
  format_currency (VInt (-500)) = Ok "$-500" /\
  format_currency (VInt z) =
    Ok ("$" ++ sign_str (z <? 0) ++ group_thousands (decimal (Z.abs z))) /\
  (forall s m e,
     format_currency (VFloat (S754_finite s m e)) =
       Ok ("$" ++ sign_str s ++ group_thousands (decimal (scaled m e 0)))).
Proof.
  intros H. repeat apply conj.
  - reflexivity.
  - vm_compute; reflexivity.
  - vm_compute; reflexivity.
  - now apply format_currency_int.
  - intros s m e. unfold format_currency, format_f. simpl.
    now rewrite fixed_point_whole.
Qed.

Lemma format_currency_renders_witness :
  Z.abs 98765 < 2 ^ 53 /\ format_currency (VInt 98765) = Ok "$98,765".
Proof.
  assert (H : Z.abs 98765 < 2 ^ 53) by (vm_compute; reflexivity).
  split; [exact H|].
  exact (proj1 (proj2 (proj2 (proj2 (format_currency_renders 98765 H))))).
Defined.

(** C5, as stated, fails: the minus sign does not lead the currency
    symbol. *)
Lemma format_currency_minus_after_symbol :
  format_currency (VInt (-500)) = Ok "$-500" /\
  format_currency (VInt (-500)) <> Ok "-$500".
Proof. split; [vm_compute; reflexivity|vm_compute; discriminate]. Qed.

(** ** Numbers in range *)

Lemma in_range_num bits v :
  1 <= bits -> in_range bits v = true ->
  exists n, as_num v = Some n /\
            match n with NInt z => Z.abs z < 2 ^ bits | NFloat _ => True end.
Proof.
  intros Hb H. destruct v; try discriminate; simpl in *.
  - exists (NInt (Z.b2z b)). split; [reflexivity|].
    assert (2 ^ 1 <= 2 ^ bits) by (apply Z.pow_le_mono_r; lia).
    destruct b; simpl in *; lia.
  - exists (NInt z). split; [reflexivity|]. now apply Z.ltb_lt.
  - exists (NFloat f). split; [reflexivity|exact I].
Qed.

Lemma in_range_weaken a b v :
  a <= b -> 0 <= a -> in_range a v = true -> in_range b v = true.
Proof.
  intros Hab Ha. destruct v; simpl; try reflexivity; try discriminate.
  intros H. apply Z.ltb_lt in H. apply Z.ltb_lt.
  assert (2 ^ a <= 2 ^ b) by (apply Z.pow_le_mono_r; lia). lia.
Qed.

Lemma format_f_ok grouped p v :
  in_range 1023 v = true -> exists s, format_f grouped p v = Ok s.
Proof.
  intros H. destruct v; try discriminate; simpl in *.
  - destruct (int_to_float_ok (Z.b2z b)) as [f ->]; [destruct b; simpl; lia|].
    simpl. eauto.
  - apply Z.ltb_lt in H. destruct (int_to_float_ok z H) as [f ->]. simpl. eauto.
  - eauto.
Qed.

Lemma py_mul_in_range a b x y :
  1 <= a -> 1 <= b -> a + b <= 1023 ->
  in_range a x = true -> in_range b y = true ->
  exists r, py_mul x y = Ok r /\ in_range (a + b) r = true.
Proof.
  intros Ha Hb Hab Hx Hy.
  destruct (in_range_num a x Ha Hx) as (n & En & Bn).
  destruct (in_range_num b y Hb Hy) as (m & Em & Bm).
  unfold py_mul. rewrite En, Em.
  assert (Pa : 2 ^ a <= 2 ^ 1023) by (apply Z.pow_le_mono_r; lia).
  assert (Pb : 2 ^ b <= 2 ^ 1023) by (apply Z.pow_le_mono_r; lia).
  destruct n as [u|f], m as [w|g]; simpl.
  - eexists; split; [reflexivity|]. simpl. apply Z.ltb_lt.
    rewrite Z.abs_mul, Z.pow_add_r by lia.
    assert (0 <= Z.abs u) by lia. assert (0 <= Z.abs w) by lia. nia.
  - destruct (int_to_float_ok u ltac:(lia)) as [fu ->]. simpl. eauto.
  - destruct (int_to_float_ok w ltac:(lia)) as [fw ->]. simpl. eauto.
  - eauto.
Qed.

Lemma format_percent_ok v :
  in_range 1000 v = true -> exists s, format_percent v = Ok s.
Proof.
  intros H.
  destruct (py_mul_in_range 1000 7 v (VInt 100)) as (r & E & R); try lia;
    [exact H|reflexivity|].
  destruct (format_f_ok false 2 r) as [s Es];
    [apply (in_range_weaken (1000 + 7)); [lia|lia|exact R]|].
  unfold format_percent. destruct v; try discriminate; rewrite E; simpl; rewrite Es; simpl; eauto.
Qed.

Lemma py_ge_num v n l :
  as_num v = Some n -> py_ge v (VFloat l) = Ok (num_ge n (NFloat l)).
Proof. intros E. unfold py_ge, py_cmp. now rewrite E. Qed.

Lemma py_le_num v n z :
  as_num v = Some n -> py_le v (VInt z) = Ok (num_le n (NInt z)).
Proof. intros E. unfold py_le, py_cmp. now rewrite E. Qed.

(** ** Exact comparison *)

(** Comparing at any common exponent below both gives the same answer. *)
Lemma xfin_compare m1 e1 m2 e2 e :
  e <= e1 -> e <= e2 ->
  (m1 * 2 ^ (e1 - Z.min e1 e2) ?= m2 * 2 ^ (e2 - Z.min e1 e2)) =
  (m1 * 2 ^ (e1 - e) ?= m2 * 2 ^ (e2 - e)).
Proof.
  intros H1 H2.
  set (k := Z.min e1 e2 - e).
  assert (K : 0 <= k) by (unfold k; lia).
  replace (e1 - e) with ((e1 - Z.min e1 e2) + k) by (unfold k; lia).
  replace (e2 - e) with ((e2 - Z.min e1 e2) + k) by (unfold k; lia).
  rewrite !Z.pow_add_r by lia.
  rewrite !Z.mul_assoc.
  assert (P : 0 < 2 ^ k) by (now apply Z.pow_pos_nonneg).
  generalize dependent (2 ^ k). intros p P.
  generalize (m1 * 2 ^ (e1 - Z.min e1 e2)) (m2 * 2 ^ (e2 - Z.min e1 e2)).
  intros a b.
  destruct (Z.compare_spec a b) as [->|L|L]; symmetry.
  - apply Z.compare_refl.
  - apply Z.compare_lt_iff. nia.
  - apply Z.compare_gt_iff. nia.
Qed.

Lemma xge_fin m1 e1 m2 e2 e :
  e <= e1 -> e <= e2 ->
  xge (XFin m1 e1) (XFin m2 e2) = (m2 * 2 ^ (e2 - e) <=? m1 * 2 ^ (e1 - e)).
Proof.
  intros H1 H2. unfold xge, xcompare. rewrite (xfin_compare m1 e1 m2 e2 e H1 H2).
  rewrite Z.leb_compare, (Z.compare_antisym (m1 * _)).
  now destruct (m1 * 2 ^ (e1 - e) ?= m2 * 2 ^ (e2 - e)).
Qed.

Lemma xle_fin m1 e1 m2 e2 e :
  e <= e1 -> e <= e2 ->
  xle (XFin m1 e1) (XFin m2 e2) = (m1 * 2 ^ (e1 - e) <=? m2 * 2 ^ (e2 - e)).
Proof.
  intros H1 H2. unfold xle, xcompare. rewrite (xfin_compare m1 e1 m2 e2 e H1 H2).
  rewrite Z.leb_compare.
  now destruct (m1 * 2 ^ (e1 - e) ?= m2 * 2 ^ (e2 - e)).
Qed.

Lemma xge_trans a b c : xge a b = true -> xge b c = true -> xge a c = true.
Proof.
  destruct a as [| | |m1 e1], b as [| | |m2 e2], c as [| | |m3 e3];
    try reflexivity; try discriminate.
  set (e := Z.min e1 (Z.min e2 e3)).
  rewrite (xge_fin m1 e1 m2 e2 e), (xge_fin m2 e2 m3 e3 e), (xge_fin m1 e1 m3 e3 e)
    by (unfold e; lia).
  rewrite !Z.leb_le. lia.
Qed.

Lemma xle_trans a b c : xle a b = true -> xle b c = true -> xle a c = true.
Proof.
  destruct a as [| | |m1 e1], b as [| | |m2 e2], c as [| | |m3 e3];
    try reflexivity; try discriminate.
  set (e := Z.min e1 (Z.min e2 e3)).
  rewrite (xle_fin m1 e1 m2 e2 e), (xle_fin m2 e2 m3 e3 e), (xle_fin m1 e1 m3 e3 e)
    by (unfold e; lia).
  rewrite !Z.leb_le. lia.
Qed.

Lemma dyadic_le a ea b eb :
  Qle_bool (dyadic a ea) (dyadic b eb) = xge (XFin b eb) (XFin a ea).
Proof.
  assert (P : forall k, 0 <= k -> Z.pos (Z.to_pos (2 ^ k)) = 2 ^ k).
  { intros k Hk. apply Z2Pos.id. now apply Z.pow_pos_nonneg. }
  unfold dyadic, Qle_bool.
  destruct (0 <=? ea) eqn:A, (0 <=? eb) eqn:B; simpl Qnum; simpl Qden;
    try apply Z.leb_le in A; try apply Z.leb_le in B;
    try apply Z.leb_gt in A; try apply Z.leb_gt in B.
  - rewrite (xge_fin b eb a ea 0) by lia. now rewrite !Z.mul_1_r, !Z.sub_0_r.
  - rewrite (xge_fin b eb a ea eb) by lia. rewrite P by lia.
    rewrite Z.sub_diag, Z.pow_0_r, !Z.mul_1_r.
    rewrite <- Z.mul_assoc, <- Z.pow_add_r by lia.
    now replace (ea + - eb) with (ea - eb) by lia.
  - rewrite (xge_fin b eb a ea ea) by lia. rewrite P by lia.
    rewrite Z.sub_diag, Z.pow_0_r, !Z.mul_1_r.
    rewrite <- Z.mul_assoc, <- Z.pow_add_r by lia.
    now replace (eb + - ea) with (eb - ea) by lia.
  - rewrite (xge_fin b eb a ea (ea + eb)) by lia. rewrite !P by lia.
    now replace (ea - (ea + eb)) with (- eb) by lia;
        replace (eb - (ea + eb)) with (- ea) by lia.
Qed.

Lemma dyadic_0 z : dyadic z 0 = inject_Z z.
Proof. unfold dyadic. simpl. now rewrite Z.mul_1_r. Qed.

(** The comparisons of the code are the exact ones. *)
Lemma num_ge_at_least n tm te :
  num_ge n (NFloat (S754_finite false tm te)) = at_least n (dyadic (Z.pos tm) te).
Proof.
  unfold num_ge, num_compare, at_least.
  change (num_value (NFloat (S754_finite false tm te))) with (XFin (Z.pos tm) te).
  destruct n as [z|[s|[|]| |s p e']]; try reflexivity.
  - cbn [num_value float_value exact_value]. rewrite <- dyadic_0, dyadic_le. reflexivity.
  - cbn [num_value float_value exact_value].
    change 0%Q with (inject_Z 0). rewrite <- dyadic_0, dyadic_le. reflexivity.
  - cbn [num_value float_value exact_value]. rewrite dyadic_le. now destruct s.
Qed.

Lemma num_le_at_most n z :
  num_le n (NInt z) = at_most n (inject_Z z).
Proof.
  unfold num_le, num_compare, at_most.
  change (num_value (NInt z)) with (XFin z 0).
  assert (L : forall m e, match xcompare (XFin m e) (XFin z 0) with
                          | Some Lt | Some Eq => true | _ => false end =
                          xge (XFin z 0) (XFin m e)).
  { intros m e. unfold xge, xcompare.
    rewrite (Z.min_comm 0 e), (Z.compare_antisym (m * _)).
    now destruct (m * 2 ^ (e - Z.min e 0) ?= z * 2 ^ (0 - Z.min e 0)). }
  destruct n as [y|[s|[|]| |s p e']]; try reflexivity.
  cbn [num_value float_value exact_value]. rewrite L, <- (dyadic_0 z), dyadic_le.
  now destruct s.
Qed.

Lemma at_least_Qeq n t t' : (t == t')%Q -> at_least n t = at_least n t'.
Proof.
  intros E. unfold at_least. destruct (exact_value n); try reflexivity.
  now apply Qleb_comp.
Qed.

(** ** Key investment metrics *)

Lemma setStyle_app t a b : setStyle (setStyle t a) b = setStyle t (a ++ b).
Proof. unfold setStyle. simpl. now rewrite app_assoc. Qed.

Lemma color_status_cmd t ir : color_status t ir = setStyle t [status_cmd ir].
Proof.
  destruct ir as [i row]. unfold color_status, status_cmd, status_tint. simpl fst; simpl snd.
  destruct (cell_in (nth 3 row (lit "")) ["GOOD"; "STRONG"; "PASS"]); [reflexivity|].
  destruct (cell_in (nth 3 row (lit "")) ["AVERAGE"; "MARGINAL"]); reflexivity.
Qed.

(** The loop appends one colour command per row. *)
Lemma fold_color_status rows : forall t,
  fold_left color_status rows t = setStyle t (map status_cmd rows).
Proof.
  induction rows as [|ir rows IH]; intros t; simpl.
  - destruct t. unfold setStyle. simpl. now rewrite app_nil_r.
  - now rewrite IH, color_status_cmd, setStyle_app.
Qed.

Lemma bind_ok {A B : Type} (r : result A) (k : A -> result B) b :
  bind r k = Ok b -> exists a, r = Ok a /\ k a = Ok b.
Proof. destruct r as [a|e]; simpl; [eauto|discriminate]. Qed.

Lemma py_ge_ok v l b :
  py_ge v (VFloat l) = Ok b ->
  exists n, as_num v = Some n /\ b = num_ge n (NFloat l).
Proof.
  unfold py_ge, py_cmp. destruct (as_num v) as [n|]; [|discriminate].
  simpl. intros [= <-]. eauto.
Qed.

Lemma py_le_ok v z b :
  py_le v (VInt z) = Ok b ->
  exists n, as_num v = Some n /\ b = num_le n (NInt z).
Proof.
  unfold py_le, py_cmp. destruct (as_num v) as [n|]; [|discriminate].
  simpl. intros [= <-]. eauto.
Qed.

(** ['top' if v >= g else ('mid' if v >= w else 'bottom')] *)
Lemma three_tiers_ok v g w (top mid bottom l : string) :
  (good <- py_ge v (VFloat g) ;;
   if good then Ok top
   else (average <- py_ge v (VFloat w) ;;
         Ok (if average then mid else bottom))) = Ok l ->
  exists n, as_num v = Some n /\
            l = if num_ge n (NFloat g) then top
                else if num_ge n (NFloat w) then mid else bottom.
Proof.
  intros H. apply bind_ok in H as (b & Hb & H).
  apply py_ge_ok in Hb as (n & N & ->). exists n. split; [exact N|].
  destruct (num_ge n (NFloat g)); [now injection H|].
  apply bind_ok in H as (b' & Hb' & H).
  apply py_ge_ok in Hb' as (n' & N' & ->).
  rewrite N in N'. injection N' as <-. now injection H.
Qed.

Lemma two_tiers_ge_ok v g (top bottom l : string) :
  (pass <- py_ge v (VFloat g) ;; Ok (if pass then top else bottom)) = Ok l ->
  exists n, as_num v = Some n /\ l = if num_ge n (NFloat g) then top else bottom.
Proof.
  intros H. apply bind_ok in H as (b & Hb & H).
  apply py_ge_ok in Hb as (n & N & ->). exists n. split; [exact N|now injection H].
Qed.

Lemma two_tiers_le_ok v z (top bottom l : string) :
  (good <- py_le v (VInt z) ;; Ok (if good then top else bottom)) = Ok l ->
  exists n, as_num v = Some n /\ l = if num_le n (NInt z) then top else bottom.
Proof.
  intros H. apply bind_ok in H as (b & Hb & H).
  apply py_le_ok in Hb as (n & N & ->). exists n. split; [exact N|now injection H].
Qed.

Lemma float_accepts_ok z : float_accepts z = true -> exists f, int_to_float z = Ok f.
Proof. unfold float_accepts. destruct (int_to_float z); [eauto|discriminate]. Qed.

Lemma percent_shown_ok v :
  percent_shown v = true ->
  (exists s, format_percent v = Ok s) /\ exists n, as_num v = Some n.
Proof.
  destruct v; try discriminate; intros H.
  - split; [|simpl; eauto]. apply format_percent_ok. reflexivity.
  - split; [|simpl; eauto]. apply float_accepts_ok in H as [f E].
    unfold format_percent, py_mul. cbn [as_num num_mul bind of_num format_f].
    rewrite E. cbn [bind]. eauto.
  - split; [|simpl; eauto]. apply format_percent_ok. reflexivity.
Qed.

Lemma ratio_shown_ok v :
  ratio_shown v = true ->
  (exists s, format_f false 2 v = Ok s) /\ exists n, as_num v = Some n.
Proof.
  destruct v; try discriminate; intros H.
  - split; [|simpl; eauto]. apply format_f_ok. reflexivity.
  - split; [|simpl; eauto]. apply float_accepts_ok in H as [f E].
    cbn [format_f]. rewrite E. cbn [bind]. eauto.
  - split; [|simpl; eauto]. apply format_f_ok. reflexivity.
Qed.

(** The table is built whenever the five metrics can be shown. *)
Lemma metrics_table_built (data : gmap string pyval) :
  percent_shown (metric data "capRate") = true ->
  percent_shown (metric data "cashOnCash") = true ->
  ratio_shown (metric data "dscr") = true ->
  ratio_shown (metric data "grm") = true ->
  percent_shown (metric data "onePercentRule") = true ->
  exists t, metrics_table data = Ok t.
Proof.
  unfold metric.
  intros R1 R2 R3 R4 R5.
  unfold metrics_table, metrics_data. cbv zeta.
  destruct (percent_shown_ok _ R1) as ([s1 ->] & n1 & N1).
  destruct (percent_shown_ok _ R2) as ([s2 ->] & n2 & N2).
  destruct (ratio_shown_ok _ R3) as ([s3 ->] & n3 & N3).
  destruct (ratio_shown_ok _ R4) as ([s4 ->] & n4 & N4).
  destruct (percent_shown_ok _ R5) as ([s5 ->] & n5 & N5).
  rewrite (py_ge_num _ _ lit_0_08 N1), (py_ge_num _ _ lit_0_06 N1),
          (py_ge_num _ _ lit_0_10 N2), (py_ge_num _ _ lit_0_06 N2),
          (py_ge_num _ _ lit_1_25 N3), (py_ge_num _ _ lit_1_0 N3),
          (py_le_num _ _ 12 N4), (py_ge_num _ _ lit_0_01 N5).
  cbn [bind].
  destruct (num_ge n1 (NFloat lit_0_08)), (num_ge n2 (NFloat lit_0_10)),
           (num_ge n3 (NFloat lit_1_25)); cbn [bind]; eauto.
Qed.

(** The thresholds of the comparisons, as exact values. *)
Lemma thresholds_exact n :
  num_ge n (NFloat lit_0_08) = at_least n double_0_08 /\
  num_ge n (NFloat lit_0_06) = at_least n double_0_06 /\
  num_ge n (NFloat lit_0_10) = at_least n double_0_10 /\
  num_ge n (NFloat lit_0_01) = at_least n double_0_01 /\
  num_ge n (NFloat lit_1_25) = at_least n (5 # 4) /\
  num_ge n (NFloat lit_1_0) = at_least n 1 /\
  num_le n (NInt 12) = at_most n 12.
Proof.
  destruct literal_values as (-> & -> & -> & -> & -> & ->).
  rewrite !num_ge_at_least, num_le_at_most.
  repeat apply conj; try reflexivity.
  - apply at_least_Qeq. reflexivity.
  - apply at_least_Qeq. reflexivity.
Qed.

(** Read the five status cells off a statement of the labels. *)
Ltac labels_of statement :=
  let Labels := fresh "Labels" in
  let Built := fresh "Built" in
  destruct statement as (Labels & Built & _);
  let t := fresh "t" in
  let Ht := fresh "Ht" in
  destruct (Built eq_refl eq_refl eq_refl eq_refl eq_refl) as [t Ht];
  destruct (Labels t Ht)
    as (cap & coc & dscr & grm & one & N1 & N2 & N3 & N4 & N5 & H1 & H2 & H3 & H4 & H5);
  vm_compute in N1, N2, N3, N4, N5;
  injection N1 as <-; injection N2 as <-; injection N3 as <-;
  injection N4 as <-; injection N5 as <-;
  exists t; split; [exact Ht|];
  rewrite H1, H2, H3, H4, H5;
  repeat apply conj; vm_compute; reflexivity.

(** C1 (amended): whenever the Key Metrics table is built, the five metrics
    are numbers and the status column follows the thresholds, read as Python
    reads them: the comparisons are exact, between the value of the metric
    (an [int] or a [float]; a NaN compares false) and the binary64 number of
    the literal.  Cap rate is "GOOD" iff [capRate >= 0.08], "AVERAGE" iff
    [0.06 <= capRate < 0.08], else "LOW"; cash-on-cash is "GOOD" iff
    [>= 0.10], "AVERAGE" iff [>= 0.06], else "LOW"; DSCR is "STRONG" iff
    [>= 1.25], "MARGINAL" iff [>= 1.0], else "WEAK"; GRM is "GOOD" iff
    [<= 12], else "HIGH"; the 1% rule is "PASS" iff [>= 0.01], else "FAIL";
    the status cell is in the success colour for a top label, in the warning
    colour for a middle label and in the danger colour otherwise.  The table
    is built whenever the five metrics are absent or numbers that can be
    shown.  Each inexact threshold is within half a unit in the last place
    of its decimal. *)
Theorem key_metrics_status (data : gmap string pyval) :
  (forall t, metrics_table data = Ok t ->
     exists cap coc dscr grm one,
       as_num (metric data "capRate") = Some cap /\
       as_num (metric data "cashOnCash") = Some coc /\
       as_num (metric data "dscr") = Some dscr /\
       as_num (metric data "grm") = Some grm /\
       as_num (metric data "onePercentRule") = Some one /\
       status_cell t 1 =
         (if at_least cap double_0_08 then (Some (lit "GOOD"), Some SUCCESS)
          else if at_least cap double_0_06 then (Some (lit "AVERAGE"), Some WARNING)
          else (Some (lit "LOW"), Some DANGER)) /\
       status_cell t 2 =
         (if at_least coc double_0_10 then (Some (lit "GOOD"), Some SUCCESS)
          else if at_least coc double_0_06 then (Some (lit "AVERAGE"), Some WARNING)
          else (Some (lit "LOW"), Some DANGER)) /\
       status_cell t 3 =
         (if at_least dscr (5 # 4) then (Some (lit "STRONG"), Some SUCCESS)
          else if at_least dscr 1 then (Some (lit "MARGINAL"), Some WARNING)
          else (Some (lit "WEAK"), Some DANGER)) /\
       status_cell t 4 =
         (if at_most grm 12 then (Some (lit "GOOD"), Some SUCCESS)
          else (Some (lit "HIGH"), Some DANGER)) /\
       status_cell t 5 =
         (if at_least one double_0_01 then (Some (lit "PASS"), Some SUCCESS)
          else (Some (lit "FAIL"), Some DANGER))) /\
  (percent_shown (metric data "capRate") = true ->
   percent_shown (metric data "cashOnCash") = true ->
   ratio_shown (metric data "dscr") = true ->
   ratio_shown (metric data "grm") = true ->
   percent_shown (metric data "onePercentRule") = true ->
   exists t, metrics_table data = Ok t) /\
  (Qabs (double_0_08 - (8 # 100)) <= 1 # 144115188075855872)%Q /\
  (Qabs (double_0_06 - (6 # 100)) <= 1 # 288230376151711744)%Q /\
  (Qabs (double_0_10 - (10 # 100)) <= 1 # 144115188075855872)%Q /\
  (Qabs (double_0_01 - (1 # 100)) <= 1 # 1152921504606846976)%Q.
Proof.
  unfold metric. repeat apply conj.
  - intros t H. unfold metrics_table in H.
    apply bind_ok in H as (rows & H & [= <-]).
    unfold metrics_data in H. cbv zeta in H.
    apply bind_ok in H as (s1 & _ & H).
    apply bind_ok in H as (l1 & L1 & H).
    apply bind_ok in H as (s2 & _ & H).
    apply bind_ok in H as (l2 & L2 & H).
    apply bind_ok in H as (s3 & _ & H).
    apply bind_ok in H as (l3 & L3 & H).
    apply bind_ok in H as (s4 & _ & H).
    apply bind_ok in H as (l4 & L4 & H).
    apply bind_ok in H as (s5 & _ & H).
    apply bind_ok in H as (l5 & L5 & H).
    injection H as <-.
    apply three_tiers_ok in L1 as (cap & N1 & ->).
    apply three_tiers_ok in L2 as (coc & N2 & ->).
    apply three_tiers_ok in L3 as (dscr & N3 & ->).
    apply two_tiers_le_ok in L4 as (grm & N4 & ->).
    apply two_tiers_ge_ok in L5 as (one & N5 & ->).
    exists cap, coc, dscr, grm, one.
    repeat (split; [assumption|]).
    rewrite fold_color_status.
    destruct (thresholds_exact cap) as (-> & -> & _).
    destruct (thresholds_exact coc) as (_ & -> & -> & _).
    destruct (thresholds_exact dscr) as (_ & _ & _ & _ & -> & -> & _).
    destruct (thresholds_exact grm) as (_ & _ & _ & _ & _ & _ & ->).
    destruct (thresholds_exact one) as (_ & _ & _ & -> & _).
    repeat apply conj.
    + destruct (at_least cap double_0_08), (at_least cap double_0_06);
        vm_compute; reflexivity.
    + destruct (at_least coc double_0_10), (at_least coc double_0_06);
        vm_compute; reflexivity.
    + destruct (at_least dscr (5 # 4)), (at_least dscr 1);
        vm_compute; reflexivity.
    + destruct (at_most grm 12); vm_compute; reflexivity.
    + destruct (at_least one double_0_01); vm_compute; reflexivity.
  - apply metrics_table_built.
  - vm_compute. discriminate.
  - vm_compute. discriminate.
  - vm_compute. discriminate.
  - vm_compute. discriminate.
Qed.

Lemma key_metrics_status_witness :
  (exists t, metrics_table mixed_payload = Ok t /\
     status_cell t 1 = (Some (lit "AVERAGE"), Some WARNING) /\
     status_cell t 2 = (Some (lit "LOW"), Some DANGER) /\
     status_cell t 3 = (Some (lit "MARGINAL"), Some WARNING) /\
     status_cell t 4 = (Some (lit "HIGH"), Some DANGER) /\
     status_cell t 5 = (Some (lit "FAIL"), Some DANGER)) /\
  (exists t, metrics_table threshold_payload = Ok t /\
     status_cell t 1 = (Some (lit "GOOD"), Some SUCCESS) /\
     status_cell t 2 = (Some (lit "AVERAGE"), Some WARNING) /\
     status_cell t 3 = (Some (lit "MARGINAL"), Some WARNING) /\
     status_cell t 4 = (Some (lit "GOOD"), Some SUCCESS) /\
     status_cell t 5 = (Some (lit "PASS"), Some SUCCESS)).
Proof.
  split.
  - labels_of (key_metrics_status mixed_payload).
  - labels_of (key_metrics_status threshold_payload).
Defined.

(** C1, as stated, fails: a metric that is text, or an [int] beyond the
    range of [float], makes the builder raise, so no label is computed. *)
Lemma key_metrics_need_numbers :
  metrics_table {[ "capRate" := VStr "8%" ]} = Raise ValueError /\
  metrics_table {[ "dscr" := VStr "1.3" ]} = Raise ValueError /\
  metrics_table {[ "grm" := VInt (10 ^ 400) ]} = Raise OverflowError /\
  generate_pdf any_text "November 04, 2026" {[ "capRate" := VStr "8%" ]} = Raise ValueError.
Proof. repeat apply conj; vm_compute; reflexivity. Qed.

(** ** Defaults *)

Lemma dict_get_union (data : gmap string pyval) key d :
  defaults !! key = Some d ->
  dict_get (data ∪ defaults) key d = dict_get data key d.
Proof.
  intros H. unfold dict_get.
  destruct (data !! key) as [v|] eqn:E.
  - now rewrite (lookup_union_Some_l _ _ _ _ E).
  - now rewrite lookup_union_r, H.
Qed.

Ltac use_defaults :=
  repeat rewrite dict_get_union by (vm_compute; reflexivity); reflexivity.

Lemma generate_pdf_defaults markup_ok today (data : gmap string pyval) :
  generate_pdf markup_ok today (data ∪ defaults) = generate_pdf markup_ok today data.
Proof.
  assert (P : property_table (data ∪ defaults) = property_table data)
    by (unfold property_table, property_data, address; use_defaults).
  assert (F : financial_table (data ∪ defaults) = financial_table data)
    by (unfold financial_table, financial_data; use_defaults).
  assert (C : cashflow_table (data ∪ defaults) = cashflow_table data)
    by (unfold cashflow_table; use_defaults).
  assert (M : metrics_table (data ∪ defaults) = metrics_table data)
    by (unfold metrics_table, metrics_data; use_defaults).
  assert (R : rules_table (data ∪ defaults) = rules_table data)
    by (unfold rules_table, rules_data; use_defaults).
  assert (V : verdict_table (data ∪ defaults) = verdict_table data)
    by (unfold verdict_table; use_defaults).
  assert (N : financing_table (data ∪ defaults) = financing_table data)
    by (unfold financing_table, financing_data; use_defaults).
  assert (H : header markup_ok today (data ∪ defaults) = header markup_ok today data)
    by (unfold header; use_defaults).
  unfold generate_pdf. now rewrite P, F, C, M, R, V, N, H.
Qed.

(** ** The sections of a report *)

(** A report that is built carries the tables of the seven sections, in the
    order of the source. *)
Lemma generate_pdf_story markup_ok today data job :
  generate_pdf markup_ok today data = Ok job ->
  exists property financial cashflow metrics financing,
    property_table data = Ok property /\
    financial_table data = Ok financial /\
    cashflow_table data = Ok cashflow /\
    metrics_table data = Ok metrics /\
    financing_table data = Ok financing /\
    List.filter (fun f => match f with TableFlow _ => true | _ => false end) (story job) =
      [ TableFlow property; TableFlow financial; TableFlow cashflow;
        TableFlow metrics; TableFlow (rules_table data);
        TableFlow (verdict_table data); TableFlow financing ].
Proof.
  unfold generate_pdf. intros H.
  apply bind_ok in H as (h & Hh & H).
  apply bind_ok in H as (t1 & H1 & H).
  apply bind_ok in H as (t2 & H2 & H).
  apply bind_ok in H as (t3 & H3 & H).
  apply bind_ok in H as (t4 & H4 & H).
  apply bind_ok in H as (t5 & H5 & H).
  injection H as <-.
  unfold header in Hh. apply bind_ok in Hh as (p & Hp & [= <-]).
  unfold parsed in Hp. destruct (markup_ok _); [injection Hp as <-|discriminate].
  exists t1, t2, t3, t4, t5. repeat (split; [assumption|]). reflexivity.
Qed.

(** The route turns an exception of the builder into a 500 response. *)
Lemma generate_report_error markup_ok render today data e :
  generate_pdf markup_ok today data = Raise e ->
  generate_report markup_ok render today data =
    ([Print [Chars "Error generating report: "; ErrOf e]], Ok (JsonError 500 e)).
Proof. intros H. unfold generate_report. now rewrite H. Qed.

(** C7, as stated, fails: a field present with [None] or with a string
    makes the builder raise. *)
Lemma report_raises_on_null_or_text :
  generate_pdf any_text "November 04, 2026" {[ "dscr" := VNone ]} = Raise TypeError /\
  generate_pdf any_text "November 04, 2026" {[ "dscr" := VStr "n/a" ]} = Raise ValueError /\
  generate_pdf any_text "November 04, 2026" {[ "grm" := VNone ]} = Raise TypeError /\
  generate_pdf any_text "November 04, 2026" {[ "grm" := VStr "n/a" ]} = Raise ValueError /\
  generate_pdf any_text "November 04, 2026" {[ "vacancyRate" := VNone ]} = Raise TypeError /\
  generate_pdf any_text "November 04, 2026" {[ "vacancyRate" := VStr "5%" ]} = Raise ValueError /\
  generate_pdf any_text "November 04, 2026" {[ "sqft" := VNone ]} = Raise TypeError /\
  generate_pdf any_text "November 04, 2026" {[ "sqft" := VStr "1,200" ]} = Raise ValueError.
Proof. repeat apply conj; vm_compute; reflexivity. Qed.

(** * Further properties *)

(** ** Rounding of displayed amounts *)

Lemma round_half_even_nearest n d :
  0 < d ->
  let q := round_half_even n d in
  Z.abs (2 * (n - q * d)) <= d /\
  (Z.abs (2 * (n - q * d)) = d -> Z.even q = true).
Proof.
  intros Hd. cbv zeta. unfold round_half_even.
  pose proof (Z.div_mod n d ltac:(lia)) as E.
  pose proof (Z.mod_pos_bound n d Hd) as B.
  destruct (Z.compare_spec (2 * (n mod d)) d) as [C|C|C].
  - destruct (Z.even (n / d)) eqn:Ev.
    + split; [nia|auto].
    + split; [nia|]. intros _.
      rewrite Z.even_add, Ev. reflexivity.
  - split; [nia|]. intros H. exfalso. nia.
  - split; [nia|]. intros H. exfalso. nia.
Qed.

Lemma scaled_exact_p m e n p :
  e <= 0 -> Z.pos m = n * 2 ^ (- e) -> scaled m e p = n * 10 ^ Z.of_nat p.
Proof.
  intros He Hm. unfold scaled.
  destruct (0 <=? e) eqn:E.
  - apply Z.leb_le in E. assert (e = 0) as -> by lia.
    simpl in Hm. rewrite Z.pow_0_r. lia.
  - assert (P : 0 < 2 ^ (- e)) by (apply Z.pow_pos_nonneg; lia).
    unfold round_half_even. rewrite Hm.
    replace (n * 2 ^ (- e) * 10 ^ Z.of_nat p) with (n * 10 ^ Z.of_nat p * 2 ^ (- e)) by ring.
    rewrite Z.div_mul, Z.mod_mul by lia.
    destruct (Z.compare_spec (2 * 0) (2 ^ (- e))); lia.
Qed.

(** X1: [format_currency] shows a finite [float] as the nearest whole number,
    a tie going to the even neighbour, and keeps the sign of the amount even
    when the number shown is zero. *)
Theorem format_currency_nearest s m e :
  exists n,
    format_currency (VFloat (S754_finite s m e)) =
      Ok ("$" ++ sign_str s ++ group_thousands (decimal n)) /\
    0 <= n /\
    (0 <= e -> n = Z.pos m * 2 ^ e) /\
    (e < 0 ->
       Z.abs (2 * (Z.pos m - n * 2 ^ (- e))) <= 2 ^ (- e) /\
       (Z.abs (2 * (Z.pos m - n * 2 ^ (- e))) = 2 ^ (- e) -> Z.even n = true)).
Proof.
  exists (scaled m e 0). repeat apply conj.
  - unfold format_currency, format_f. simpl. now rewrite fixed_point_whole.
  - unfold scaled. destruct (0 <=? e) eqn:E.
    + apply Z.leb_le in E. assert (0 <= 2 ^ e) by (apply Z.pow_nonneg; lia).
      simpl Z.of_nat. rewrite Z.pow_0_r. nia.
    + apply Z.leb_gt in E.
      assert (P : 0 < 2 ^ (- e)) by (apply Z.pow_pos_nonneg; lia).
      simpl Z.of_nat. rewrite Z.pow_0_r, Z.mul_1_r.
      unfold round_half_even.
      assert (0 <= Z.pos m / 2 ^ (- e)) by (apply Z.div_pos; lia).
      destruct (_ ?= _); [destruct (Z.even _)|..]; lia.
  - intros He. unfold scaled. apply Z.leb_le in He. rewrite He.
    simpl Z.of_nat. rewrite Z.pow_0_r. lia.
  - intros He. unfold scaled.
    assert (E : (0 <=? e) = false) by (apply Z.leb_gt; lia). rewrite E.
    simpl Z.of_nat. rewrite Z.pow_0_r, Z.mul_1_r.
    apply round_half_even_nearest. apply Z.pow_pos_nonneg; lia.
Qed.

Lemma format_currency_nearest_witness :
  -1 < 0 /\
  exists n,
    format_currency (VFloat (S754_finite false 5 (-1))) =
      Ok ("$" ++ sign_str false ++ group_thousands (decimal n)) /\
    Z.abs (2 * (5 - n * 2 ^ (- -1))) <= 2 ^ (- -1) /\
    (Z.abs (2 * (5 - n * 2 ^ (- -1))) = 2 ^ (- -1) -> Z.even n = true).
Proof.
  assert (L : -1 < 0) by reflexivity.
  split; [exact L|].
  destruct (format_currency_nearest false 5 (-1)) as (n & H & _ & _ & Hneg).
  exists n. split; [exact H|exact (Hneg L)].
Defined.

(** ** [format_percent] *)

Lemma string_append_assoc (a b c : string) : (a ++ b) ++ c = a ++ (b ++ c).
Proof.
  induction a as [|x a IH]; [reflexivity|].
  change (String x ((a ++ b) ++ c) = String x (a ++ (b ++ c))). now rewrite IH.
Qed.

Lemma fixed_point_hundredths n :
  0 <= n -> fixed_point (n * 10 ^ Z.of_nat 2) 2 false = decimal n ++ ".00".
Proof.
  intros H. unfold fixed_point.
  rewrite Z.div_mul, Z.mod_mul by (simpl; lia). reflexivity.
Qed.

(** X2: [format_percent] returns "0.00%" for [None]; an [int] is shown as a
    hundred times its value with two zero decimals (the sign first); a NaN
    or an infinity is not rejected: it prints as "nan%", "inf%" or
    "-inf%". *)
Theorem format_percent_renders (z : Z) :
  Z.abs z * 100 < 2 ^ 53 ->
  format_percent VNone = Ok "0.00%" /\
  format_percent (VInt z) =
    Ok (sign_str (z <? 0) ++ decimal (Z.abs z * 100) ++ ".00%") /\
  format_percent (VFloat S754_nan) = Ok "nan%" /\
  format_percent (VFloat (S754_infinity false)) = Ok "inf%" /\
  format_percent (VFloat (S754_infinity true)) = Ok "-inf%".
Proof.
  intros H. repeat apply conj; try reflexivity.
  unfold format_percent, py_mul. simpl as_num. unfold num_mul. cbn [bind of_num].
  unfold format_f, int_to_float, binary_normalize.
  destruct z as [|p|p].
  - reflexivity.
  - change (Z.pos p * 100) with (Z.pos (p * 100)).
    destruct (binary_round_int_exact false (p * 100) ltac:(lia)) as (m & e & -> & He & Hm).
    cbn [bind format_float_f sign_str].
    rewrite (scaled_exact_p m e (Z.pos (p * 100)) 2 He Hm).
    rewrite fixed_point_hundredths by lia.
    change (Z.pos p <? 0) with false. simpl sign_str. simpl Z.abs.
    change (Z.pos (p * 100)) with (Z.pos p * 100).
    now rewrite !string_append_assoc.
  - change (Z.neg p * 100) with (Z.neg (p * 100)).
    destruct (binary_round_int_exact true (p * 100) ltac:(lia)) as (m & e & -> & He & Hm).
    cbn [bind format_float_f sign_str].
    rewrite (scaled_exact_p m e (Z.pos (p * 100)) 2 He Hm).
    rewrite fixed_point_hundredths by lia.
    change (Z.neg p <? 0) with true. simpl sign_str. simpl Z.abs.
    change (Z.pos (p * 100)) with (Z.pos p * 100).
    now rewrite !string_append_assoc.
Qed.

Lemma format_percent_renders_witness :
  Z.abs (-3) * 100 < 2 ^ 53 /\ format_percent (VInt (-3)) = Ok "-300.00%".
Proof.
  assert (H : Z.abs (-3) * 100 < 2 ^ 53) by reflexivity.
  split; [exact H|].
  exact (proj1 (proj2 (format_percent_renders (-3) H))).
Defined.

(** ** The classification is monotone *)

Lemma clears_trans hib a b c :
  clears hib a b = true -> clears hib b c = true -> clears hib a c = true.
Proof.
  destruct hib; simpl.
  - apply (xge_trans (num_value a) (num_value b) (num_value c)).
  - apply (xle_trans (num_value a) (num_value b) (num_value c)).
Qed.

(** X3: [get_status_color] is monotone in the value.  When [better] is at
    least as favourable as [value] (at least as large when higher is better,
    at most as large otherwise), the colour of [better] is never a lower
    tier: green stays green, and red for [better] means red for [value].
    This holds for any thresholds, in any order, also mixed [int] and
    [float]. *)
Theorem get_status_color_monotone value better good warn hib :
  clears hib better value = true ->
  (get_status_color value good warn hib = SUCCESS ->
   get_status_color better good warn hib = SUCCESS) /\
  (get_status_color better good warn hib = DANGER ->
   get_status_color value good warn hib = DANGER).
Proof.
  intros B.
  assert (T : forall t, clears hib value t = true -> clears hib better t = true).
  { intros t. now apply clears_trans. }
  rewrite !get_status_color_cases.
  destruct (clears hib value good) eqn:G.
  - rewrite (T good G). split; [reflexivity|discriminate].
  - split.
    + destruct (warn_cleared hib value warn); discriminate.
    + destruct (clears hib better good); [discriminate|].
      destruct (warn_cleared hib value warn) eqn:W; [|reflexivity].
      apply warn_cleared_true in W as (w & -> & Hw & Hc).
      unfold warn_cleared. rewrite Hw, (T w Hc). discriminate.
Qed.

Lemma get_status_color_monotone_witness :
  clears true (NInt 1) (NFloat lit_0_10) = true /\
  (get_status_color (NFloat lit_0_10) (NFloat lit_0_10) (Some (NFloat lit_0_06)) true = SUCCESS ->
   get_status_color (NInt 1) (NFloat lit_0_10) (Some (NFloat lit_0_06)) true = SUCCESS) /\
  (get_status_color (NInt 1) (NFloat lit_0_10) (Some (NFloat lit_0_06)) true = DANGER ->
   get_status_color (NFloat lit_0_10) (NFloat lit_0_10) (Some (NFloat lit_0_06)) true = DANGER).
Proof.
  assert (C : clears true (NInt 1) (NFloat lit_0_10) = true) by (vm_compute; reflexivity).
  exact (conj C (get_status_color_monotone (NFloat lit_0_10) (NInt 1)
                   (NFloat lit_0_10) (Some (NFloat lit_0_06)) true C)).
Defined.

(** ** Which values a numeric field accepts *)

Lemma dict_get_some (data : gmap string pyval) key d v :
  data !! key = Some v -> dict_get data key d = v.
Proof. unfold dict_get. now intros ->. Qed.

Lemma dict_get_delete_eq (data : gmap string pyval) key d :
  dict_get (delete key data) key d = d.
Proof. unfold dict_get. now rewrite lookup_delete_eq. Qed.

Lemma dict_get_delete_ne (data : gmap string pyval) key key' d :
  key <> key' -> dict_get (delete key data) key' d = dict_get data key' d.
Proof. intros H. unfold dict_get. now rewrite lookup_delete_ne. Qed.

Lemma raises_bind_l {A B : Type} (r : result A) (k : A -> result B) :
  raises r -> raises (bind r k).
Proof. intros [e ->]. now exists e. Qed.

Lemma raises_bind_r {A B : Type} (r : result A) (k : A -> result B) :
  (forall a, raises (k a)) -> raises (bind r k).
Proof. intros H. destruct r as [a|e]; [apply H|now exists e]. Qed.

Lemma py_mul_none_r a : py_mul a VNone = Raise TypeError.
Proof. destruct a; reflexivity. Qed.

Lemma py_mul_none_l b : py_mul VNone b = Raise TypeError.
Proof. destruct b; reflexivity. Qed.

(** [a * s] for a string [s] raises or is a string again. *)
Lemma py_mul_str_r a s :
  (exists e, py_mul a (VStr s) = Raise e) \/ (exists t, py_mul a (VStr s) = Ok (VStr t)).
Proof.
  destruct a; simpl; eauto.
  - unfold py_mul. simpl. unfold seq_repeat. destruct (index_ok (Z.b2z b)); eauto.
  - unfold py_mul. simpl. unfold seq_repeat. destruct (index_ok z); eauto.
Qed.

(** A string times any value, negated and shown as money, raises. *)
Lemma vacancy_str_raises a s :
  raises (x <- py_mul a (VStr s) ;; y <- py_mul x (VInt (-1)) ;;
          z <- format_currency y ;; Ok (lit z)).
Proof.
  destruct (py_mul_str_r a s) as [[e ->]|[t ->]]; [now exists e|].
  now exists ValueError.
Qed.

(** Search for the step that raises in a chain of binds. *)
Ltac leaf :=
  solve [ eexists; reflexivity
        | rewrite py_mul_none_r; eexists; reflexivity
        | rewrite py_mul_none_l; eexists; reflexivity
        | apply vacancy_str_raises ].

Ltac find_raise :=
  first
    [ leaf
    | lazymatch goal with
      | |- raises (bind ?r ?k) =>
          let h := eval hnf in r in
          lazymatch h with
          | Ok ?a => change (raises (k a)); cbv beta; find_raise
          | Raise ?e => exists e; reflexivity
          | _ => first [ solve [apply raises_bind_l; find_raise]
                       | apply raises_bind_r; intros ?; find_raise ]
          end
      | |- raises (if ?b then _ else _) => destruct b; find_raise
      end ].

Ltac open_report :=
  unfold generate_pdf, property_table, property_data, financial_table,
    financial_data, cashflow_table, cf_color, metrics_table, metrics_data,
    financing_table, financing_data, money;
  cbv zeta.

(** X4: a numeric field that is present with [None] makes [generate_pdf]
    raise when the field is multiplied, subtracted, compared or formatted in
    place: [sqft], [grossRentMonthly], [vacancyRate], [totalExpensesMonthly],
    [monthlyPayment], [monthlyCashFlow], the five metrics and
    [downPaymentPercent]. *)
Theorem null_rejected_raises markup_ok today (data : gmap string pyval) key :
  In key null_rejected ->
  data !! key = Some VNone ->
  raises (generate_pdf markup_ok today data).
Proof.
  intros Hk Hn.
  assert (G : dict_get data key (VInt 0) = VNone) by (now apply dict_get_some).
  unfold null_rejected in Hk. simpl in Hk.
  repeat (destruct Hk as [<-|Hk]; [open_report; rewrite !G; find_raise|]).
  contradiction.
Qed.

Lemma null_rejected_raises_witness :
  In "monthlyCashFlow" null_rejected /\
  ({[ "monthlyCashFlow" := VNone ]} : gmap string pyval) !! "monthlyCashFlow" = Some VNone /\
  raises (generate_pdf any_text "November 04, 2026" {[ "monthlyCashFlow" := VNone ]}).
Proof.
  assert (I : In "monthlyCashFlow" null_rejected) by (simpl; tauto).
  assert (L : ({[ "monthlyCashFlow" := VNone ]} : gmap string pyval) !! "monthlyCashFlow"
              = Some VNone) by reflexivity.
  exact (conj I (conj L (null_rejected_raises any_text _ _ _ I L))).
Defined.

(** X5: a string in any of the numeric fields makes [generate_pdf] raise,
    whatever the string is (also a numeric-looking one such as "350000"). *)
Theorem text_in_numeric_field_raises markup_ok today (data : gmap string pyval) key s :
  In key numeric_fields ->
  data !! key = Some (VStr s) ->
  raises (generate_pdf markup_ok today data).
Proof.
  intros Hk Hn.
  assert (G : dict_get data key (VInt 0) = VStr s) by (now apply dict_get_some).
  unfold numeric_fields in Hk. simpl in Hk.
  repeat (destruct Hk as [<-|Hk]; [open_report; rewrite !G; find_raise|]).
  contradiction.
Qed.

Lemma text_in_numeric_field_raises_witness :
  In "purchasePrice" numeric_fields /\
  ({[ "purchasePrice" := VStr "350000" ]} : gmap string pyval) !! "purchasePrice"
    = Some (VStr "350000") /\
  raises (generate_pdf any_text "November 04, 2026" {[ "purchasePrice" := VStr "350000" ]}).
Proof.
  assert (I : In "purchasePrice" numeric_fields) by (simpl; tauto).
  assert (L : ({[ "purchasePrice" := VStr "350000" ]} : gmap string pyval) !! "purchasePrice"
              = Some (VStr "350000")) by reflexivity.
  exact (conj I (conj L (text_in_numeric_field_raises any_text _ _ _ _ I L))).
Defined.

(** ** The keys each section reads *)

Lemma dict_get_agree (d1 d2 : gmap string pyval) key d :
  d1 !! key = d2 !! key -> dict_get d1 key d = dict_get d2 key d.
Proof. unfold dict_get. now intros ->. Qed.

Lemma agree_on_incl keys keys' d1 d2 :
  incl keys keys' -> agree_on keys' d1 d2 -> agree_on keys d1 d2.
Proof. intros I H key Hk. apply H, I, Hk. Qed.

Lemma agree_on_delete keys key (data : gmap string pyval) :
  ~ In key keys -> agree_on keys data (delete key data).
Proof.
  intros N k Hk. symmetry. apply lookup_delete_ne. now intros ->.
Qed.

Ltac listed_key := simpl; repeat (first [left; reflexivity | right]).

Ltac reads d1 d2 H :=
  rewrite !(dict_get_agree d1 d2) by (apply H; listed_key);
  reflexivity.

Lemma header_reads markup_ok today d1 d2 :
  agree_on ["userName"] d1 d2 -> header markup_ok today d1 = header markup_ok today d2.
Proof. intros H. unfold header. reads d1 d2 H. Qed.

Lemma property_table_reads d1 d2 :
  agree_on [ "sqft"; "propertyAddress"; "propertyCity"; "propertyState";
             "propertyZip"; "propertyType"; "numUnits"; "bedrooms";
             "bathrooms"; "yearBuilt"; "lotSize" ] d1 d2 ->
  property_table d1 = property_table d2.
Proof. intros H. unfold property_table, property_data, address. reads d1 d2 H. Qed.

Lemma financial_table_reads d1 d2 :
  agree_on [ "purchasePrice"; "grossRentMonthly"; "downPayment"; "vacancyRate";
             "closingCosts"; "otherIncomeMonthly"; "rehabCosts";
             "effectiveIncomeMonthly"; "loanAmount"; "totalExpensesMonthly";
             "totalCashNeeded"; "noiMonthly"; "monthlyPayment" ] d1 d2 ->
  financial_table d1 = financial_table d2.
Proof. intros H. unfold financial_table, financial_data. reads d1 d2 H. Qed.

Lemma cashflow_table_reads d1 d2 :
  agree_on ["monthlyCashFlow"; "annualCashFlow"] d1 d2 ->
  cashflow_table d1 = cashflow_table d2.
Proof. intros H. unfold cashflow_table. reads d1 d2 H. Qed.

Lemma metrics_table_reads d1 d2 :
  agree_on ["capRate"; "cashOnCash"; "dscr"; "grm"; "onePercentRule"] d1 d2 ->
  metrics_table d1 = metrics_table d2.
Proof. intros H. unfold metrics_table, metrics_data. reads d1 d2 H. Qed.

Lemma rules_table_reads d1 d2 :
  agree_on [ "rule1Pass"; "rule2Pass"; "rule50Pass"; "rule70Pass";
             "cashFlowPositivePass" ] d1 d2 ->
  rules_table d1 = rules_table d2.
Proof. intros H. unfold rules_table, rules_data. reads d1 d2 H. Qed.

Lemma verdict_table_reads d1 d2 :
  agree_on ["verdict"] d1 d2 -> verdict_table d1 = verdict_table d2.
Proof. intros H. unfold verdict_table. reads d1 d2 H. Qed.

Lemma financing_table_reads d1 d2 :
  agree_on [ "interestRate"; "downPaymentPercent"; "monthlyPayment";
             "annualDebtService"; "loanTermYears" ] d1 d2 ->
  financing_table d1 = financing_table d2.
Proof. intros H. unfold financing_table, financing_data. reads d1 d2 H. Qed.

(** X6: the document depends on the payload through the keys of
    [report_keys] only: two payloads that agree on them give the same
    document or the same exception, whatever else they hold. *)
Theorem generate_pdf_reads markup_ok today d1 d2 :
  agree_on report_keys d1 d2 ->
  generate_pdf markup_ok today d1 = generate_pdf markup_ok today d2.
Proof.
  intros H. unfold generate_pdf.
  rewrite (header_reads markup_ok today d1 d2),
          (property_table_reads d1 d2), (financial_table_reads d1 d2),
          (cashflow_table_reads d1 d2), (metrics_table_reads d1 d2),
          (rules_table_reads d1 d2), (verdict_table_reads d1 d2),
          (financing_table_reads d1 d2);
    [reflexivity|..];
    (eapply agree_on_incl; [|exact H]); intros k Hk; simpl in Hk;
    repeat (destruct Hk as [<-|Hk]; [listed_key|]); contradiction.
Qed.

Lemma generate_pdf_reads_witness :
  generate_pdf any_text "November 04, 2026" (<["userEmail" := VStr "a@b.c"]> example_payload) =
  generate_pdf any_text "November 04, 2026" example_payload.
Proof.
  apply generate_pdf_reads.
  intros k Hk. apply lookup_insert_ne. intros <-.
  simpl in Hk. intuition discriminate.
Defined.

Ltac same_reads H :=
  rewrite ?dict_get_delete_eq, ?(dict_get_some _ _ _ _ H);
  repeat rewrite dict_get_delete_ne by discriminate;
  reflexivity.

(** X7: for the fields that only [format_currency] or [format_percent]
    reads, a present [None] gives the same document as a missing key. *)
Theorem null_reads_as_missing markup_ok today (data : gmap string pyval) key :
  In key null_tolerant ->
  data !! key = Some VNone ->
  generate_pdf markup_ok today data = generate_pdf markup_ok today (delete key data).
Proof.
  intros Hk Hn.
  assert (K : In key ["purchasePrice"; "downPayment"; "closingCosts";
                      "otherIncomeMonthly"; "rehabCosts"; "effectiveIncomeMonthly";
                      "loanAmount"; "totalCashNeeded"; "noiMonthly"] \/
              key = "annualCashFlow" \/
              In key ["interestRate"; "annualDebtService"]).
  { unfold null_tolerant in Hk. simpl in Hk. simpl. intuition. }
  clear Hk.
  unfold generate_pdf.
  destruct K as [K|[K|K]].
  - rewrite (header_reads markup_ok today data (delete key data)), (property_table_reads data (delete key data)),
      (cashflow_table_reads data (delete key data)), (metrics_table_reads data (delete key data)),
      (rules_table_reads data (delete key data)), (verdict_table_reads data (delete key data)),
      (financing_table_reads data (delete key data));
      try (apply agree_on_delete; simpl in K |- *; intuition (subst; discriminate)).
    replace (financial_table (delete key data)) with (financial_table data);
      [reflexivity|].
    simpl in K. unfold financial_table, financial_data.
    repeat (destruct K as [<-|K]; [same_reads Hn|]). contradiction.
  - rewrite (header_reads markup_ok today data (delete key data)), (property_table_reads data (delete key data)),
      (financial_table_reads data (delete key data)), (metrics_table_reads data (delete key data)),
      (rules_table_reads data (delete key data)), (verdict_table_reads data (delete key data)),
      (financing_table_reads data (delete key data));
      try (apply agree_on_delete; simpl; intuition (subst; discriminate)).
    replace (cashflow_table (delete key data)) with (cashflow_table data);
      [reflexivity|].
    subst key. unfold cashflow_table, cf_color. same_reads Hn.
  - rewrite (header_reads markup_ok today data (delete key data)), (property_table_reads data (delete key data)),
      (financial_table_reads data (delete key data)), (cashflow_table_reads data (delete key data)),
      (metrics_table_reads data (delete key data)),
      (rules_table_reads data (delete key data)), (verdict_table_reads data (delete key data));
      try (apply agree_on_delete; simpl in K |- *; intuition (subst; discriminate)).
    replace (financing_table (delete key data)) with (financing_table data);
      [reflexivity|].
    simpl in K. unfold financing_table, financing_data.
    repeat (destruct K as [<-|K]; [same_reads Hn|]). contradiction.
Qed.

Lemma null_reads_as_missing_witness :
  In "purchasePrice" null_tolerant /\
  (<["purchasePrice" := VNone]> example_payload) !! "purchasePrice" = Some VNone /\
  generate_pdf any_text "November 04, 2026" (<["purchasePrice" := VNone]> example_payload) =
  generate_pdf any_text "November 04, 2026"
    (delete "purchasePrice" (<["purchasePrice" := VNone]> example_payload)).
Proof.
  assert (I : In "purchasePrice" null_tolerant) by (simpl; tauto).
  assert (L : (<["purchasePrice" := VNone]> example_payload) !! "purchasePrice" = Some VNone)
    by apply lookup_insert_eq.
  exact (conj I (conj L (null_reads_as_missing any_text _ _ _ I L))).
Defined.

(** ** Shape of the tables *)

Ltac binds H :=
  repeat (cbv zeta in H; apply bind_ok in H as (? & ? & H)).

Lemma property_table_shape data t :
  property_table data = Ok t -> well_formed t = true.
Proof.
  unfold property_table. intros H. binds H. injection H as <-.
  match goal with E : property_data _ = Ok _ |- _ =>
    unfold property_data in E; binds E; injection E as <- end.
  reflexivity.
Qed.

Lemma financial_table_shape data t :
  financial_table data = Ok t -> well_formed t = true.
Proof.
  unfold financial_table. intros H. binds H. injection H as <-.
  match goal with E : financial_data _ = Ok _ |- _ =>
    unfold financial_data in E; binds E; injection E as <- end.
  reflexivity.
Qed.

Lemma cashflow_table_shape data t :
  cashflow_table data = Ok t -> well_formed t = true.
Proof.
  unfold cashflow_table. intros H. binds H. injection H as <-. reflexivity.
Qed.

Lemma metrics_table_shape data t :
  metrics_table data = Ok t -> well_formed t = true.
Proof.
  unfold metrics_table. intros H. binds H. injection H as <-.
  match goal with E : metrics_data _ = Ok _ |- _ =>
    unfold metrics_data in E; binds E; injection E as <- end.
  rewrite fold_color_status. reflexivity.
Qed.

Lemma rules_table_shape data : well_formed (rules_table data) = true.
Proof.
  unfold rules_table, rules_data. cbv zeta.
  destruct (truthy (dict_get data "rule1Pass" (VBool false))),
           (truthy (dict_get data "rule2Pass" (VBool false))),
           (truthy (dict_get data "rule50Pass" (VBool false))),
           (truthy (dict_get data "rule70Pass" (VBool false))),
           (truthy (dict_get data "cashFlowPositivePass" (VBool false)));
    vm_compute; reflexivity.
Qed.

Lemma verdict_table_shape data : well_formed (verdict_table data) = true.
Proof. reflexivity. Qed.

Lemma financing_table_shape data t :
  financing_table data = Ok t -> well_formed t = true.
Proof.
  unfold financing_table. intros H. binds H. injection H as <-.
  match goal with E : financing_data _ = Ok _ |- _ =>
    unfold financing_data in E; binds E; injection E as <- end.
  reflexivity.
Qed.

(** X8: every table of a document that is built is well formed: each row
    has as many cells as the table has column widths, and every style
    command, the colour commands of the two loops included, addresses cells
    that exist. *)
Theorem tables_well_formed markup_ok today data job :
  generate_pdf markup_ok today data = Ok job ->
  Forall (fun f => match f with TableFlow t => well_formed t = true | _ => True end)
    (story job).
Proof.
  intros H. apply List.Forall_forall. intros f I. destruct f as [? ?|? ?|t]; trivial.
  destruct (generate_pdf_story _ _ _ _ H) as (t1 & t2 & t3 & t4 & t5 & P & F & C & M & N & S).
  assert (I' : In (TableFlow t)
                 (List.filter (fun f => match f with TableFlow _ => true | _ => false end)
                    (story job))) by (apply filter_In; now split).
  rewrite S in I'. simpl in I'.
  destruct I' as [[= <-]|[[= <-]|[[= <-]|[[= <-]|[[= <-]|[[= <-]|[[= <-]|[]]]]]]]].
  - exact (property_table_shape _ _ P).
  - exact (financial_table_shape _ _ F).
  - exact (cashflow_table_shape _ _ C).
  - exact (metrics_table_shape _ _ M).
  - apply rules_table_shape.
  - apply verdict_table_shape.
  - exact (financing_table_shape _ _ N).
Qed.

Lemma tables_well_formed_witness :
  exists job,
    generate_pdf any_text "November 04, 2026" example_payload = Ok job /\
    Forall (fun f => match f with TableFlow t => well_formed t = true | _ => True end)
      (story job).
Proof.
  destruct (generate_pdf any_text "November 04, 2026" example_payload) as [job|e] eqn:E.
  - exists job. split; [reflexivity|]. exact (tables_well_formed _ _ _ _ E).
  - vm_compute in E. discriminate E.
Defined.

(** ** The negated lines of the financial snapshot *)

Lemma negated_int z :
  Z.abs z < 2 ^ 53 ->
  (x <- py_mul (VInt z) (VInt (-1)) ;; money x) =
    Ok (lit ("$" ++ sign_str (0 <? z) ++ group_thousands (decimal (Z.abs z)))).
Proof.
  intros H. unfold py_mul, money. cbn [as_num num_mul bind of_num].
  rewrite format_currency_int by lia. cbn [bind].
  replace (z * -1 <? 0) with (0 <? z) by (destruct z; reflexivity).
  replace (Z.abs (z * -1)) with (Z.abs z) by lia.
  reflexivity.
Qed.

Lemma negated_zero s :
  (x <- py_mul (VFloat (S754_zero s)) (VInt (-1)) ;; money x) =
    Ok (lit ("$" ++ sign_str (negb s) ++ "0")).
Proof. destruct s; vm_compute; reflexivity. Qed.

(** X9: the Operating Expenses and Mortgage Payment lines show the amount
    negated.  For an [int] below [2^53] in magnitude the line reads "$-" and
    the grouped digits when the amount is positive, "$" and the digits when
    it is negative, and "$0" when it is 0; a [float] zero is shown with the
    opposite sign, so 0.0 reads "$-0". *)
Theorem negated_lines (data : gmap string pyval) t key row v :
  financial_table data = Ok t ->
  (key, row) = ("totalExpensesMonthly", 4) \/ (key, row) = ("monthlyPayment", 6) ->
  data !! key = Some v ->
  (forall z, v = VInt z -> Z.abs z < 2 ^ 53 ->
     cell_at t 3 row =
       Some (lit ("$" ++ sign_str (0 <? z) ++ group_thousands (decimal (Z.abs z))))) /\
  (forall s, v = VFloat (S754_zero s) ->
     cell_at t 3 row = Some (lit ("$" ++ sign_str (negb s) ++ "0"))).
Proof.
  unfold financial_table. intros H K V. binds H. injection H as <-.
  match goal with E : financial_data _ = Ok _ |- _ =>
    unfold financial_data in E; binds E; injection E as <- end.
  apply (dict_get_some _ _ (VInt 0)) in V.
  destruct K as [[= -> ->]|[= -> ->]]; rewrite V in *; split.
  - intros z -> Hz.
    match goal with E : bind (py_mul (VInt z) _) _ = Ok _ |- _ =>
      rewrite (negated_int z Hz) in E; injection E as <- end.
    reflexivity.
  - intros s ->.
    match goal with E : bind (py_mul (VFloat (S754_zero s)) _) _ = Ok _ |- _ =>
      rewrite (negated_zero s) in E; injection E as <- end.
    reflexivity.
  - intros z -> Hz.
    match goal with E : bind (py_mul (VInt z) _) _ = Ok _ |- _ =>
      rewrite (negated_int z Hz) in E; injection E as <- end.
    reflexivity.
  - intros s ->.
    match goal with E : bind (py_mul (VFloat (S754_zero s)) _) _ = Ok _ |- _ =>
      rewrite (negated_zero s) in E; injection E as <- end.
    reflexivity.
Qed.

Lemma negated_lines_witness :
  exists t,
    financial_table {[ "totalExpensesMonthly" := VInt 1200 ]} = Ok t /\
    cell_at t 3 4 = Some (lit "$-1,200").
Proof.
  destruct (financial_table {[ "totalExpensesMonthly" := VInt 1200 ]}) as [t|e] eqn:E.
  - exists t. split; [reflexivity|].
    exact (proj1 (negated_lines _ t "totalExpensesMonthly" 4 (VInt 1200) E
                    (or_introl eq_refl) eq_refl)
             1200 eq_refl eq_refl).
  - vm_compute in E. discriminate E.
Defined.

(** ** More on file names *)

Lemma replace_absent old new s : contains old s = false -> replace old new s = s.
Proof.
  induction s as [|a s IH]; [reflexivity|]. simpl. intros H.
  apply orb_false_iff in H as [-> H]. now rewrite IH.
Qed.

Lemma slice_to_short n s : (String.length s <= n)%nat -> slice_to n s = s.
Proof.
  revert s. induction n as [|n IH]; intros [|a s]; simpl; intros H;
    try reflexivity; try lia.
  rewrite IH; [reflexivity|lia].
Qed.

Lemma safe_address_download_fixed s :
  contains " " s = false -> contains "," s = false -> contains "." s = false ->
  (String.length s <= 30)%nat -> safe_address_download s = s.
Proof.
  intros H1 H2 H3 H4. unfold safe_address_download.
  now rewrite (replace_absent " "), (replace_absent ","), (replace_absent "."), slice_to_short.
Qed.

(** X10: cleaning an address for the download is idempotent: a stem that has
    been cleaned is its own stem. *)
Theorem safe_address_download_idempotent s :
  safe_address_download (safe_address_download s) = safe_address_download s.
Proof.
  destruct (safe_address_download_clean s) as (H1 & H2 & H3 & H4).
  now apply safe_address_download_fixed.
Qed.

(** X11: on an address without a period the two routes compute the same
    stem. *)
Theorem stems_agree_without_period s :
  contains "." s = false -> safe_address_email s = safe_address_download s.
Proof.
  intros H. unfold safe_address_email, safe_address_download.
  rewrite (replace_absent "." "" (replace "," "" (replace " " "_" s))); [reflexivity|].
  rewrite !contains_replace by reflexivity. now rewrite H.
Qed.

Lemma stems_agree_without_period_witness :
  contains "." "12 Ocean Dr, Boca Raton" = false /\
  safe_address_email "12 Ocean Dr, Boca Raton" = "12_Ocean_Dr_Boca_Raton" /\
  safe_address_download "12 Ocean Dr, Boca Raton" = "12_Ocean_Dr_Boca_Raton".
Proof.
  assert (H : contains "." "12 Ocean Dr, Boca Raton" = false) by reflexivity.
  split; [exact H|].
  rewrite (stems_agree_without_period _ H). split; reflexivity.
Defined.

(** ** The download route *)

(** X12: every PDF response of the download route is named
    [Investment_Analysis_<stem>.pdf] where the stem has no space, comma or
    period and at most 30 characters, and it carries the PDF content
    type. *)
Theorem download_filename_clean markup_ok render today data tr body headers :
  generate_report markup_ok render today data = (tr, Ok (PdfResponse body headers)) ->
  exists stem,
    headers = [("Content-Type", "application/pdf"); content_disposition stem] /\
    contains " " stem = false /\ contains "," stem = false /\
    contains "." stem = false /\ (String.length stem <= 30)%nat.
Proof.
  intros H. apply generate_report_filename in H as (s & _ & ->).
  exists (safe_address_download s). split; [reflexivity|].
  apply safe_address_download_clean.
Qed.

Lemma download_filename_clean_witness :
  exists stem,
    [("Content-Type", "application/pdf");
     content_disposition "1600_Pennsylvania_Avenue_NW_Wa"] =
    [("Content-Type", "application/pdf"); content_disposition stem] /\
    contains " " stem = false /\ contains "," stem = false /\
    contains "." stem = false /\ (String.length stem <= 30)%nat.
Proof.
  apply (download_filename_clean any_text blank_page "November 04, 2026"
           {[ "propertyAddress" := VStr "1600 Pennsylvania Avenue N.W., Washington" ]}
           [] []).
  vm_compute. reflexivity.
Defined.

(** X13: the download route never raises, whatever the builder, the
    renderer, the file-name computation or the setting of the headers does:
    it returns a PDF response and prints nothing, or it returns a JSON error
    with status 500 carrying the exception and prints one line. *)
Theorem generate_report_never_raises markup_ok render today data :
  exists tr resp,
    generate_report markup_ok render today data = (tr, Ok resp) /\
    match resp with
    | PdfResponse _ _ => tr = []
    | JsonError status e =>
        status = 500 /\ tr = [Print [Chars "Error generating report: "; ErrOf e]]
    end.
Proof.
  unfold generate_report.
  destruct (generate_pdf markup_ok today data) as [job|e]; simpl;
    [|do 2 eexists; split; [reflexivity|split; reflexivity]].
  destruct (render job) as [buf|e]; simpl;
    [|do 2 eexists; split; [reflexivity|split; reflexivity]].
  destruct (dict_get data "propertyAddress" (VStr "Investment_Property"));
    simpl; try (do 2 eexists; split; [reflexivity|split; reflexivity]).
  unfold set_header.
  match goal with |- context [has_line_break ?v] => destruct (has_line_break v) end;
    simpl; do 2 eexists; (split; [reflexivity|]); [split; reflexivity|reflexivity].
Qed.



(** ** The SMTP session *)

(** X15: with credentials and a string address, the calls [send_email] makes
    to the mail server are the session connect, STARTTLS, login with the
    configured user and password, send, quit, cut after the first call that
    fails: nothing is sent unless the login succeeded, and a session in
    which a call before [quit] failed is never closed with [quit]. *)
Theorem send_email_session cfg server data pdf_buffer s :
  configured cfg = true ->
  dict_get data "propertyAddress" (VStr "Investment Property") = VStr s ->
  transport_events (fst (send_email cfg server data pdf_buffer)) =
    firstn (calls_made server) (session cfg (composed_message cfg data pdf_buffer s)) /\
  ((calls_made server < 5)%nat ->
   ~ In quit (fst (send_email cfg server data pdf_buffer))).
Proof.
  intros C Hs. unfold send_email. rewrite C, Hs. unfold calls_made.
  destruct server as [[c|] [t|] [l|] [m|] [q|]]; simpl; split;
    try reflexivity; intros H; try lia;
    intros F; simpl in F; repeat (destruct F as [F|F]; [discriminate F|]); exact F.
Qed.

Lemma send_email_session_witness :
  configured example_config = true /\
  transport_events (fst (send_email example_config refusing_login example_payload [])) =
    [ SMTP "smtp.gmail.com" 587; starttls; login "reports@bogenhomes.com" "app-password" ] /\
  ~ In quit (fst (send_email example_config refusing_login example_payload [])).
Proof.
  assert (C : configured example_config = true) by reflexivity.
  split; [exact C|].
  destruct (send_email_session example_config refusing_login example_payload []
              "Investment Property" C eq_refl) as [H Q].
  split.
  - rewrite H. reflexivity.
  - apply Q. unfold refusing_login, calls_made. simpl. lia.
Defined.

(** X16: with credentials, an address that is present but not a string makes
    [send_email] raise [AttributeError] before any call to the mail server
    and before printing anything. *)
Theorem send_email_needs_string_address cfg server data pdf_buffer v :
  configured cfg = true ->
  data !! "propertyAddress" = Some v ->
  (forall s, v <> VStr s) ->
  send_email cfg server data pdf_buffer = ([], Raise AttributeError).
Proof.
  intros C Hv Hs. unfold send_email, dict_get. rewrite C, Hv. simpl.
  destruct v; try reflexivity. now contradiction (Hs s).
Qed.

Lemma send_email_needs_string_address_witness :
  configured example_config = true /\
  send_email example_config accepting_server {[ "propertyAddress" := VNone ]} [] =
    ([], Raise AttributeError).
Proof.
  assert (C : configured example_config = true) by reflexivity.
  split; [exact C|].
  apply (send_email_needs_string_address _ _ _ _ VNone C); [reflexivity|discriminate].
Defined.

(** X17: when the payload has no address, both routes name the file
    [Investment_Analysis_Investment_Property.pdf], although their default
    addresses are spelled differently. *)
Theorem missing_address_same_name (data : gmap string pyval) :
  data !! "propertyAddress" = None ->
  (forall markup_ok render today tr body headers,
     generate_report markup_ok render today data = (tr, Ok (PdfResponse body headers)) ->
     headers = [("Content-Type", "application/pdf");
                ("Content-Disposition",
                 "attachment; filename=" ++ dquote ++
                 "Investment_Analysis_Investment_Property.pdf" ++ dquote)]) /\
  (forall cfg server pdf_buffer msg,
     In (send_message msg) (fst (send_email cfg server data pdf_buffer)) ->
     attachment_filename msg = "Investment_Analysis_Investment_Property.pdf").
Proof.
  intros H. split.
  - intros markup_ok render today tr body headers E.
    apply generate_report_filename in E as (s & Hs & ->).
    unfold dict_get in Hs. rewrite H in Hs. injection Hs as <-. reflexivity.
  - intros cfg server pdf_buffer msg. unfold send_email, dict_get. rewrite H.
    destruct (configured cfg); simpl.
    + destruct server as [[c|] [t|] [l|] [m|] [q|]]; simpl; intros F;
        repeat (destruct F as [F|F]; [try discriminate F; try (injection F as <-; reflexivity)|]);
        contradiction.
    + intros F. repeat (destruct F as [F|F]; [discriminate F|]). contradiction.
Qed.

Lemma missing_address_same_name_witness :
  (∅ : gmap string pyval) !! "propertyAddress" = None /\
  (exists msg,
     In (send_message msg) (fst (send_email example_config accepting_server ∅ [])) /\
     attachment_filename msg = "Investment_Analysis_Investment_Property.pdf").
Proof.
  assert (H : (∅ : gmap string pyval) !! "propertyAddress" = None) by reflexivity.
  split; [exact H|].
  eexists. split.
  - vm_compute. do 3 right. left. reflexivity.
  - apply (proj2 (missing_address_same_name ∅ H) example_config accepting_server []).
    vm_compute. do 3 right. left. reflexivity.
Defined.

(** ** Missing fields *)

Lemma int_to_float_minus_one :
  int_to_float (-1) = Ok (S754_finite true 4503599627370496 (-52)).
Proof. vm_compute. reflexivity. Qed.

(** The vacancy line is shown only for two numbers. *)
Lemma vacancy_numbers rent vac c :
  (x <- py_mul rent vac ;; y <- py_mul x (VInt (-1)) ;; money y) = Ok c ->
  exists r v, as_num rent = Some r /\ as_num vac = Some v.
Proof.
  intros H.
  destruct rent, vac; try (simpl; eauto; fail); exfalso;
    unfold py_mul in H; simpl in H; unfold seq_repeat in H;
    try destruct (index_ok _); simpl in H; discriminate.
Qed.

Lemma negated_float_shown f :
  exists c, (y <- py_mul (VFloat f) (VInt (-1)) ;; money y) = Ok c.
Proof.
  unfold py_mul. cbn [as_num num_mul num_to_float bind of_num].
  rewrite int_to_float_minus_one. cbn [bind of_num].
  unfold money, format_currency. cbn [format_f bind]. eauto.
Qed.

Lemma vacancy_without_rent rent vac c :
  (x <- py_mul rent vac ;; y <- py_mul x (VInt (-1)) ;; money y) = Ok c ->
  exists c', (x <- py_mul (VInt 0) vac ;; y <- py_mul x (VInt (-1)) ;; money y) = Ok c'.
Proof.
  intros H. apply vacancy_numbers in H as (r & v & _ & V).
  unfold py_mul at 1. rewrite V. cbn [as_num].
  destruct v as [z|f].
  - cbn [num_mul bind of_num]. rewrite Z.mul_0_l. vm_compute. eauto.
  - cbn [num_mul num_to_float bind of_num].
    change (int_to_float 0) with (@Ok spec_float (S754_zero false)). cbn [bind of_num].
    apply negated_float_shown.
Qed.

Lemma vacancy_without_rate rent vac c :
  (x <- py_mul rent vac ;; y <- py_mul x (VInt (-1)) ;; money y) = Ok c ->
  exists c', (x <- py_mul rent (VInt 0) ;; y <- py_mul x (VInt (-1)) ;; money y) = Ok c'.
Proof.
  intros H. apply vacancy_numbers in H as (r & v & R & _).
  unfold py_mul at 1. rewrite R. cbn [as_num].
  destruct r as [z|f].
  - cbn [num_mul bind of_num]. rewrite Z.mul_0_r. vm_compute. eauto.
  - cbn [num_mul num_to_float bind of_num].
    change (int_to_float 0) with (@Ok spec_float (S754_zero false)). cbn [bind of_num].
    apply negated_float_shown.
Qed.

(** Replay a chain of steps that succeeded: a step that reads the same
    fields gives the same result, a step on a default is evaluated. *)
Ltac replay E :=
  repeat (cbv zeta in E; cbv zeta;
    lazymatch type of E with
    | bind ?r _ = Ok _ =>
        lazymatch goal with
        | |- exists outcome, bind r _ = Ok outcome =>
            let Er := fresh "Er" in
            revert E; destruct r eqn:Er; intros E;
            [cbn [bind] in E |- *|discriminate E]
        | |- exists outcome, bind ?r' _ = Ok outcome =>
            let Er := fresh "Er" in
            revert E; destruct r eqn:Er; intros E;
            [cbn [bind] in E|discriminate E];
            first [ let c := fresh "c" in
                    let Ec := fresh "Ec" in
                    destruct (vacancy_without_rent _ _ _ Er) as [c Ec]; rewrite Ec
                  | let c := fresh "c" in
                    let Ec := fresh "Ec" in
                    destruct (vacancy_without_rate _ _ _ Er) as [c Ec]; rewrite Ec
                  | let v := eval vm_compute in r' in
                    lazymatch v with
                    | Ok ?a => replace r' with v by (vm_compute; reflexivity)
                    end ];
            cbn [bind]
        end
    end);
  eexists; reflexivity.

Ltac reads_after_delete :=
  rewrite ?dict_get_delete_eq;
  repeat rewrite dict_get_delete_ne by discriminate.

(** A table whose rows are built first. *)
Ltac rows_first H data_drop :=
  apply bind_ok in H as (? & H & _);
  destruct (data_drop _ H) as [? ->]; cbn [bind]; eauto.

Lemma property_data_drop data key rows :
  In key [ "sqft"; "propertyAddress"; "propertyCity"; "propertyState";
           "propertyZip"; "propertyType"; "numUnits"; "bedrooms";
           "bathrooms"; "yearBuilt"; "lotSize" ] ->
  property_data data = Ok rows ->
  exists rows', property_data (delete key data) = Ok rows'.
Proof.
  intros I H. unfold property_data, address in H |- *. simpl in I.
  repeat (destruct I as [<-|I]; [reads_after_delete; replay H|]). contradiction.
Qed.

Lemma property_table_drop data key t :
  property_table data = Ok t -> exists t', property_table (delete key data) = Ok t'.
Proof.
  intros H.
  destruct (In_dec string_dec key
              [ "sqft"; "propertyAddress"; "propertyCity"; "propertyState";
                "propertyZip"; "propertyType"; "numUnits"; "bedrooms";
                "bathrooms"; "yearBuilt"; "lotSize" ]) as [I|N].
  - unfold property_table in H |- *. rows_first H (fun rows => property_data_drop data key rows I).
  - rewrite <- (property_table_reads data (delete key data))
      by (apply agree_on_delete; exact N). eauto.
Qed.

Lemma financial_data_drop data key rows :
  In key [ "purchasePrice"; "grossRentMonthly"; "downPayment"; "vacancyRate";
           "closingCosts"; "otherIncomeMonthly"; "rehabCosts";
           "effectiveIncomeMonthly"; "loanAmount"; "totalExpensesMonthly";
           "totalCashNeeded"; "noiMonthly"; "monthlyPayment" ] ->
  financial_data data = Ok rows ->
  exists rows', financial_data (delete key data) = Ok rows'.
Proof.
  intros I H. unfold financial_data in H |- *. simpl in I.
  repeat (destruct I as [<-|I]; [reads_after_delete; replay H|]). contradiction.
Qed.

Lemma financial_table_drop data key t :
  financial_table data = Ok t -> exists t', financial_table (delete key data) = Ok t'.
Proof.
  intros H.
  destruct (In_dec string_dec key
              [ "purchasePrice"; "grossRentMonthly"; "downPayment"; "vacancyRate";
                "closingCosts"; "otherIncomeMonthly"; "rehabCosts";
                "effectiveIncomeMonthly"; "loanAmount"; "totalExpensesMonthly";
                "totalCashNeeded"; "noiMonthly"; "monthlyPayment" ]) as [I|N].
  - unfold financial_table in H |- *. rows_first H (fun rows => financial_data_drop data key rows I).
  - rewrite <- (financial_table_reads data (delete key data))
      by (apply agree_on_delete; exact N). eauto.
Qed.

Lemma cashflow_table_drop data key t :
  cashflow_table data = Ok t -> exists t', cashflow_table (delete key data) = Ok t'.
Proof.
  intros H.
  destruct (In_dec string_dec key ["monthlyCashFlow"; "annualCashFlow"]) as [I|N].
  - unfold cashflow_table in H |- *. simpl in I.
    repeat (destruct I as [<-|I]; [reads_after_delete; replay H|]). contradiction.
  - rewrite <- (cashflow_table_reads data (delete key data))
      by (apply agree_on_delete; exact N). eauto.
Qed.

Lemma metrics_data_drop data key rows :
  In key ["capRate"; "cashOnCash"; "dscr"; "grm"; "onePercentRule"] ->
  metrics_data data = Ok rows ->
  exists rows', metrics_data (delete key data) = Ok rows'.
Proof.
  intros I H. unfold metrics_data in H |- *. simpl in I.
  repeat (destruct I as [<-|I]; [reads_after_delete; replay H|]). contradiction.
Qed.

Lemma metrics_table_drop data key t :
  metrics_table data = Ok t -> exists t', metrics_table (delete key data) = Ok t'.
Proof.
  intros H.
  destruct (In_dec string_dec key
              ["capRate"; "cashOnCash"; "dscr"; "grm"; "onePercentRule"]) as [I|N].
  - unfold metrics_table in H |- *. rows_first H (fun rows => metrics_data_drop data key rows I).
  - rewrite <- (metrics_table_reads data (delete key data))
      by (apply agree_on_delete; exact N). eauto.
Qed.

Lemma financing_data_drop data key rows :
  In key [ "interestRate"; "downPaymentPercent"; "monthlyPayment";
           "annualDebtService"; "loanTermYears" ] ->
  financing_data data = Ok rows ->
  exists rows', financing_data (delete key data) = Ok rows'.
Proof.
  intros I H. unfold financing_data in H |- *. simpl in I.
  repeat (destruct I as [<-|I]; [reads_after_delete; replay H|]). contradiction.
Qed.

Lemma financing_table_drop data key t :
  financing_table data = Ok t -> exists t', financing_table (delete key data) = Ok t'.
Proof.
  intros H.
  destruct (In_dec string_dec key
              [ "interestRate"; "downPaymentPercent"; "monthlyPayment";
                "annualDebtService"; "loanTermYears" ]) as [I|N].
  - unfold financing_table in H |- *. rows_first H (fun rows => financing_data_drop data key rows I).
  - rewrite <- (financing_table_reads data (delete key data))
      by (apply agree_on_delete; exact N). eauto.
Qed.

Lemma header_drop markup_ok today data key h :
  markup_ok (default_prepared_for today) = true ->
  header markup_ok today data = Ok h ->
  exists h', header markup_ok today (delete key data) = Ok h'.
Proof.
  intros D H. destruct (string_dec key "userName") as [->|N].
  - unfold header, parsed. rewrite dict_get_delete_eq.
    change ([Chars "Prepared for: "] +++ py_str (VStr "N/A") +++
            [Chars "<br/>Date: "; Chars today])
      with (default_prepared_for today).
    rewrite D. cbn [bind]. eauto.
  - rewrite <- (header_reads markup_ok today data (delete key data)); [eauto|].
    apply agree_on_delete. simpl. intuition congruence.
Qed.

(** Dropping a field from a payload for which the report is built leaves a
    payload for which it is built. *)
Lemma generate_pdf_drop markup_ok today data key job :
  markup_ok (default_prepared_for today) = true ->
  generate_pdf markup_ok today data = Ok job ->
  exists job', generate_pdf markup_ok today (delete key data) = Ok job'.
Proof.
  unfold generate_pdf. intros D H.
  apply bind_ok in H as (h & H0 & H).
  apply bind_ok in H as (t1 & H1 & H).
  apply bind_ok in H as (t2 & H2 & H).
  apply bind_ok in H as (t3 & H3 & H).
  apply bind_ok in H as (t4 & H4 & H).
  apply bind_ok in H as (t5 & H5 & H).
  destruct (header_drop _ _ _ key _ D H0) as [h' ->].
  destruct (property_table_drop _ key _ H1) as [t1' ->].
  destruct (financial_table_drop _ key _ H2) as [t2' ->].
  destruct (cashflow_table_drop _ key _ H3) as [t3' ->].
  destruct (metrics_table_drop _ key _ H4) as [t4' ->].
  destruct (financing_table_drop _ key _ H5) as [t5' ->].
  cbn [bind]. eauto.
Qed.

Lemma generate_pdf_empty markup_ok today :
  markup_ok (default_prepared_for today) = true ->
  exists job, generate_pdf markup_ok today ∅ = Ok job.
Proof.
  intros D. unfold generate_pdf, header, parsed.
  change (dict_get ∅ "userName" (VStr "N/A")) with (VStr "N/A").
  change ([Chars "Prepared for: "] +++ py_str (VStr "N/A") +++
          [Chars "<br/>Date: "; Chars today])
    with (default_prepared_for today).
  rewrite D. cbn [bind]. eexists. vm_compute. reflexivity.
Qed.

(** C7 (amended): report generation is total over missing fields.  Each
    consumer substitutes its documented default (0, "N/A", "", "FL", 1, 30,
    "REVIEW", [False]) for a field that is absent, so a payload gives the
    result of the payload with the defaults filled in.  When the paragraph
    parser takes the header line of a missing user name, the story of the
    empty payload is built, and dropping any fields from a payload whose
    story is built leaves a payload whose story is built: no consumer raises
    on a missing field.  A value is not replaced by a default: [dscr],
    [grm], [vacancyRate] or [sqft] present as text makes [generate_pdf]
    raise. *)
Theorem report_total_on_missing_fields markup_ok today (data : gmap string pyval) :
  generate_pdf markup_ok today (data ∪ defaults) = generate_pdf markup_ok today data /\
  (markup_ok (default_prepared_for today) = true ->
   (exists job, generate_pdf markup_ok today ∅ = Ok job) /\
   (forall job keys,
      generate_pdf markup_ok today data = Ok job ->
      exists job', generate_pdf markup_ok today (foldr delete data keys) = Ok job')) /\
  (forall key s,
     In key ["dscr"; "grm"; "vacancyRate"; "sqft"] ->
     data !! key = Some (VStr s) ->
     raises (generate_pdf markup_ok today data)).
Proof.
  split; [apply generate_pdf_defaults|]. split.
  - intros D. split; [now apply generate_pdf_empty|].
    intros job keys H.
    induction keys as [|key keys [job' IH]]; simpl; [eauto|].
    now apply (generate_pdf_drop markup_ok today _ key job').
  - intros key s I L.
    assert (G : dict_get data key (VInt 0) = VStr s) by (now apply dict_get_some).
    simpl in I.
    repeat (destruct I as [<-|I]; [open_report; rewrite !G; find_raise|]).
    contradiction.
Qed.

Lemma report_total_on_missing_fields_witness :
  any_text (default_prepared_for "November 04, 2026") = true /\
  (exists job, generate_pdf any_text "November 04, 2026" ∅ = Ok job) /\
  (exists job,
     generate_pdf any_text "November 04, 2026"
       (foldr delete example_payload ["dscr"; "verdict"; "grossRentMonthly"]) = Ok job).
Proof.
  assert (D : any_text (default_prepared_for "November 04, 2026") = true) by reflexivity.
  destruct (proj1 (proj2 (report_total_on_missing_fields any_text "November 04, 2026"
                            example_payload)) D)
    as [E Drop].
  split; [exact D|]. split; [exact E|].
  destruct (generate_pdf any_text "November 04, 2026" example_payload) as [job|e] eqn:G.
  - exact (Drop job _ eq_refl).
  - vm_compute in G. discriminate G.
Defined.
